(** * RecursiveRetrieverToolSpec (llama_hub/tools/recursive_retriever/base.py)

    A shallow embedding of the tool spec and of the calls it makes into the
    retrieval framework.  The Python code is glue: it builds per-key
    sub-agents, one routing node per key, a routing index and a recursive
    query engine.  Every framework call can raise and can have side effects,
    so the embedding is written in a state-and-exception monad over an
    abstract world, and the framework is an interface ([Framework]). *)

From Stdlib Require Import String Ascii ZArith.
From stdpp Require Import base tactics option list strings gmap sorting.

(** ** Python exceptions *)

Inductive exn : Type :=
  | KeyError (msg : string)
  | ValueError (msg : string)
  | IndexError (msg : string)
  | Raised (cls msg : string).

(** ** The state-and-exception monad

    A computation takes the world before the call and gives the world after
    it together with either the raised exception or the returned value.
    Side effects made before an exception is raised are kept, as in Python. *)

Definition M (W A : Type) : Type := W -> W * (exn + A).

Definition ret {W A} (a : A) : M W A := fun w => (w, inr a).

Definition raise {W A} (e : exn) : M W A := fun w => (w, inl e).

Definition bind {W A B} (m : M W A) (k : A -> M W B) : M W B :=
  fun w =>
    match m w with
    | (w', inr a) => k a w'
    | (w', inl e) => (w', inl e)
    end.

(** A pure computation that may raise (no effect on the world). *)
Definition lift {W A} (r : exn + A) : M W A := fun w => (w, r).

Notation "'let*' x ':=' m 'in' k" := (bind m (fun x => k))
  (at level 10, x pattern, m at level 100, k at level 200).

(** [returns m w a w']: run from world [w], [m] returns [a] in world [w'].
    [raises m w e w']: run from world [w], [m] raises [e] in world [w']. *)
Definition returns {W A} (m : M W A) (w : W) (a : A) (w' : W) : Prop :=
  m w = (w', inr a).

Definition raises {W A} (m : M W A) (w : W) (e : exn) (w' : W) : Prop :=
  m w = (w', inl e).

(** ** [str.format] with keyword arguments

    The fragment of the replacement-field grammar that the template uses:
    literal text, the escapes [{{] and [}}], and fields that are a plain
    keyword name.  Conversions, format specifications, attribute and index
    access are outside the fragment and rejected by it. *)

Fixpoint kw_lookup (name : string) (kwargs : list (string * string))
  : option string :=
  match kwargs with
  | [] => None
  | (k, v) :: rest => if String.eqb k name then Some v else kw_lookup name rest
  end.

Definition field_special (c : ascii) : bool :=
  (Ascii.eqb c "{" || Ascii.eqb c "!" || Ascii.eqb c ":"
   || Ascii.eqb c "." || Ascii.eqb c "[")%bool.

Definition is_digit (c : ascii) : bool :=
  (Nat.leb 48 (nat_of_ascii c) && Nat.leb (nat_of_ascii c) 57)%bool.

Fixpoint all_digits (s : string) : bool :=
  match s with
  | EmptyString => true
  | String c rest => (is_digit c && all_digits rest)%bool
  end.

(** A field with no name or a numeric name is positional; [format] is
    called with keyword arguments only, so no position exists. *)
Definition positional_error (index : string) : exn :=
  IndexError
    ("Replacement index " +:+ index
     +:+ " out of range for positional args tuple").

Definition prepend (s : string) (r : exn + string) : exn + string :=
  match r with
  | inr t => inr (s +:+ t)
  | inl e => inl e
  end.

Fixpoint format_from (tpl : string) (field : option string)
    (kwargs : list (string * string)) : exn + string :=
  match tpl with
  | EmptyString =>
      match field with
      | None => inr EmptyString
      | Some _ => inl (ValueError "expected '}' before end of string")
      end
  | String c rest =>
      match field with
      | None =>
          if Ascii.eqb c "{" then
            match rest with
            | String c' rest' =>
                if Ascii.eqb c' "{"
                then prepend "{" (format_from rest' None kwargs)
                else format_from rest (Some EmptyString) kwargs
            | EmptyString =>
                inl (ValueError "Single '{' encountered in format string")
            end
          else if Ascii.eqb c "}" then
            match rest with
            | String c' rest' =>
                if Ascii.eqb c' "}"
                then prepend "}" (format_from rest' None kwargs)
                else inl (ValueError "Single '}' encountered in format string")
            | EmptyString =>
                inl (ValueError "Single '}' encountered in format string")
            end
          else prepend (String c EmptyString) (format_from rest None kwargs)
      | Some name =>
          if Ascii.eqb c "}" then
            match name with
            | EmptyString => inl (positional_error "0")
            | _ =>
                if all_digits name then inl (positional_error name)
                else
                  match kw_lookup name kwargs with
                  | Some v => prepend v (format_from rest None kwargs)
                  | None => inl (KeyError name)
                  end
            end
          else if field_special c then
            inl (ValueError "unsupported replacement field")
          else format_from rest (Some (name +:+ String c EmptyString)) kwargs
      end
  end.

(** [tpl.format] applied to keyword arguments only. *)
Definition str_format (tpl : string) (kwargs : list (string * string))
  : exn + string :=
  format_from tpl None kwargs.

(** [sub in s] on Python strings. *)
Fixpoint contains (sub s : string) : bool :=
  if String.prefix sub s then true
  else match s with
       | EmptyString => false
       | String _ rest => contains sub rest
       end.

(** ** Module constant *)

Definition DEFAULT_SUMMARY : string :=
"
This content contains information about {key}.
Use this index if you need to lookup specific facts about {key}.
Do not use this index if you want to analyze multiple keys.
".

(** ** Framework data classes

    [IndexNode], [ToolMetadata] and [QueryEngineTool] only hold the values
    they are constructed with. *)

Record IndexNode : Type := mkIndexNode {
  text : string;
  index_id : string
}.

Record ToolMetadata : Type := mkToolMetadata {
  name : string;
  description : string
}.

Record QueryEngineTool (QE : Type) : Type := mkQueryEngineTool {
  tool_query_engine : QE;
  tool_metadata : ToolMetadata
}.

Arguments mkQueryEngineTool {QE} _ _.
Arguments tool_query_engine {QE} _.
Arguments tool_metadata {QE} _.

(** The text of [DEFAULT_SUMMARY] with both fields replaced by the key. *)
Definition summary_of (key : string) : string :=
  "
This content contains information about " +:+ key +:+ ".
Use this index if you need to lookup specific facts about " +:+ key +:+ ".
Do not use this index if you want to analyze multiple keys.
".

Definition routing_node (key : string) : IndexNode :=
  mkIndexNode (summary_of key) key.

(** ** The framework interface

    The classes and functions of the retrieval framework that the tool spec
    calls.  The objects are opaque; every call runs in the monad, so it may
    raise any exception and change the world. *)

Record Framework : Type := mkFramework {
  World : Type;
  Document : Type;
  ServiceContext : Type;
  LLM : Type;
  VectorStoreIndex : Type;
  SummaryIndex : Type;
  QueryEngine : Type;
  Agent : Type;
  Retriever : Type;
  RecursiveRetriever : Type;
  ResponseSynthesizer : Type;
  RetrieverQueryEngine : Type;
  Response : Type;
  (* service_context.llm, a property of the framework's class *)
  llm : ServiceContext -> M World LLM;
  (* ServiceContext.from_defaults() *)
  ServiceContext_from_defaults : M World ServiceContext;
  (* VectorStoreIndex.from_documents(documents, service_context=...) *)
  VectorStoreIndex_from_documents :
    list Document -> ServiceContext -> M World VectorStoreIndex;
  (* SummaryIndex.from_documents(documents, service_context=...) *)
  SummaryIndex_from_documents :
    list Document -> ServiceContext -> M World SummaryIndex;
  (* index.as_query_engine() *)
  VectorStoreIndex_as_query_engine : VectorStoreIndex -> M World QueryEngine;
  SummaryIndex_as_query_engine : SummaryIndex -> M World QueryEngine;
  (* agent.from_tools(tools, llm=..., verbose=...) *)
  from_tools :
    Agent -> list (QueryEngineTool QueryEngine) -> LLM -> bool -> M World Agent;
  (* VectorStoreIndex(nodes, service_context=...) *)
  VectorStoreIndex_init :
    list IndexNode -> ServiceContext -> M World VectorStoreIndex;
  (* index.as_retriever(similarity_top_k=...) *)
  as_retriever : VectorStoreIndex -> nat -> M World Retriever;
  (* RecursiveRetriever(root_id, retriever_dict=..., query_engine_dict=...,
     verbose=...) *)
  RecursiveRetriever_init :
    string -> gmap string Retriever -> gmap string Agent -> bool ->
    M World RecursiveRetriever;
  (* get_response_synthesizer(service_context=..., response_mode=...) *)
  get_response_synthesizer :
    ServiceContext -> string -> M World ResponseSynthesizer;
  (* RetrieverQueryEngine.from_args(retriever, response_synthesizer=...,
     service_context=...) *)
  RetrieverQueryEngine_from_args :
    RecursiveRetriever -> ResponseSynthesizer -> ServiceContext ->
    M World RetrieverQueryEngine;
  (* query_engine.query(query) *)
  RetrieverQueryEngine_query : RetrieverQueryEngine -> string -> M World Response
}.

(** ** The tool spec

    The [agents] dict is a finite map with string keys and [nodes] a Python
    list grown with [append].  [agent_documents.items()] is the sequence of
    the input dict's entries in insertion order: [init_items] is the
    constructor on that sequence, whatever its order, and every statement
    about the order of the calls or about which exception is raised is
    made on it.  [__init__] is the constructor on the input taken as a
    finite map, visited in the map's own order; it carries the statements
    that hold for every order (key sets, nodes, sub-agents).
    [if not service_context] tests for [None]: a service context object is
    always true. *)

Section ToolSpec.
Context (F : Framework).

Record RecursiveRetrieverToolSpec : Type := mkToolSpec {
  query_engine : RetrieverQueryEngine F;
  keys : gset string
}.

Definition spec_functions : list string := ["query"; "query_keys"].

Definition _create_subagent (documents : list (Document F))
    (service_context : ServiceContext F) (key : string) (agent : Agent F)
  : M (World F) (Agent F) :=
  let* vector_index :=
    VectorStoreIndex_from_documents F documents service_context in
  let* vector_engine := VectorStoreIndex_as_query_engine F vector_index in
  let* summary_index :=
    SummaryIndex_from_documents F documents service_context in
  let* summary_engine := SummaryIndex_as_query_engine F summary_index in
  let query_engine_tools :=
    [ mkQueryEngineTool vector_engine
        (mkToolMetadata "vector_tool"
           ("Useful for summarization questions related to " +:+ key));
      mkQueryEngineTool summary_engine
        (mkToolMetadata "summary_tool"
           ("Useful for retrieving specific context from " +:+ key)) ] in
  let* model := llm F service_context in
  from_tools F agent query_engine_tools model true.

(** The constructor's [for] loop, over the items still to visit, with the
    [agents] dict and the [nodes] list built so far. *)
Fixpoint init_loop (items : list (string * list (Document F)))
    (service_context : ServiceContext F) (agent : Agent F)
    (agents : gmap string (Agent F)) (nodes : list IndexNode)
  : M (World F) (gmap string (Agent F) * list IndexNode) :=
  match items with
  | [] => ret (agents, nodes)
  | (key, documents) :: rest =>
      let* subagent :=
        _create_subagent documents service_context key agent in
      let* summary := lift (str_format DEFAULT_SUMMARY [("key", key)]) in
      init_loop rest service_context agent
        (<[key := subagent]> agents)
        (nodes ++ [mkIndexNode summary key])
  end.

Definition init_items (items : list (string * list (Document F)))
    (agent : Agent F) (service_context : option (ServiceContext F))
  : M (World F) RecursiveRetrieverToolSpec :=
  let* service_context :=
    match service_context with
    | Some sc => ret sc
    | None => ServiceContext_from_defaults F
    end in
  let* built := init_loop items service_context agent ∅ [] in
  let agents := built.1 in
  let nodes := built.2 in
  let* index := VectorStoreIndex_init F nodes service_context in
  let* vector_retriever := as_retriever F index 1 in
  let* recursive_retriever :=
    RecursiveRetriever_init F "vector" {["vector" := vector_retriever]}
      agents true in
  let* response_synthesizer :=
    get_response_synthesizer F service_context "compact" in
  let* engine :=
    RetrieverQueryEngine_from_args F recursive_retriever
      response_synthesizer service_context in
  ret (mkToolSpec engine (dom agents)).

Definition __init__ (agent_documents : gmap string (list (Document F)))
    (agent : Agent F) (service_context : option (ServiceContext F))
  : M (World F) RecursiveRetrieverToolSpec :=
  init_items (map_to_list agent_documents) agent service_context.

Definition query (self : RecursiveRetrieverToolSpec) (q : string)
  : M (World F) (Response F) :=
  RetrieverQueryEngine_query F (query_engine self) q.

Definition query_keys (self : RecursiveRetrieverToolSpec) : gset string :=
  keys self.

End ToolSpec.

Arguments query_engine {F} _.
Arguments keys {F} _.
Arguments query {F} _ _.
Arguments query_keys {F} _.

(** ** A reference framework

    Modelled from the spec: the retrieval framework itself (vector index,
    retrievers, recursive retriever, response synthesizer, retriever query
    engine, agents) is an external dependency and not part of the sources.
    The objects below record what they were constructed with, and the
    top-level query follows the spec's description of the recursive query
    engine: resolve the query to a key with the routing retriever (the
    [similarity_top_k] best-scoring routing nodes), forward the same query
    text to that key's sub-agent, and pass the sub-agent's answer through
    the response synthesizer.  The machine-learning parts stay abstract:
    the similarity score and the language model are fields of the service
    context, a sub-agent's answer is [agent_answer], and what the spec
    leaves undefined (no key matches, response modes other than compact)
    is a parameter.  Every sub-agent records its invocations in the world. *)

Record RLLM : Type := mkRLLM {
  (* question, context -> generated text *)
  generate : string -> string -> string
}.

Record RServiceContext : Type := mkRServiceContext {
  (* query text, node text -> similarity of their embeddings *)
  similarity : string -> string -> Z;
  sc_llm : RLLM
}.

Inductive RIndex (Doc : Type) : Type :=
  | FromDocuments (documents : list Doc) (sc : RServiceContext)
  | FromNodes (nodes : list IndexNode) (sc : RServiceContext).

Arguments FromDocuments {Doc} _ _.
Arguments FromNodes {Doc} _ _.

Inductive REngine (Doc : Type) : Type :=
  | VectorEngine (index : RIndex Doc)
  | SummaryEngine (index : RIndex Doc).

Arguments VectorEngine {Doc} _.
Arguments SummaryEngine {Doc} _.

Record RAgent (Doc : Type) : Type := mkRAgent {
  agent_tools : list (QueryEngineTool (REngine Doc));
  agent_llm : option RLLM;
  agent_verbose : bool
}.

Arguments mkRAgent {Doc} _ _ _.
Arguments agent_tools {Doc} _.
Arguments agent_llm {Doc} _.
Arguments agent_verbose {Doc} _.

Record RRetriever (Doc : Type) : Type := mkRRetriever {
  retriever_index : RIndex Doc;
  similarity_top_k : nat
}.

Arguments mkRRetriever {Doc} _ _.
Arguments retriever_index {Doc} _.
Arguments similarity_top_k {Doc} _.

Record RRecursiveRetriever (Doc : Type) : Type := mkRRecursiveRetriever {
  root_id : string;
  retriever_dict : gmap string (RRetriever Doc);
  query_engine_dict : gmap string (RAgent Doc);
  retriever_verbose : bool
}.

Arguments mkRRecursiveRetriever {Doc} _ _ _ _.
Arguments root_id {Doc} _.
Arguments retriever_dict {Doc} _.
Arguments query_engine_dict {Doc} _.
Arguments retriever_verbose {Doc} _.

Record RSynthesizer : Type := mkRSynthesizer {
  synthesizer_context : RServiceContext;
  response_mode : string
}.

Record RQueryEngine (Doc : Type) : Type := mkRQueryEngine {
  engine_retriever : RRecursiveRetriever Doc;
  engine_synthesizer : RSynthesizer;
  engine_context : RServiceContext
}.

Arguments mkRQueryEngine {Doc} _ _ _.
Arguments engine_retriever {Doc} _.
Arguments engine_synthesizer {Doc} _.
Arguments engine_context {Doc} _.

(** Routing nodes ordered by decreasing similarity to the query. *)
Definition better (sc : RServiceContext) (q : string) (n1 n2 : IndexNode)
  : Prop :=
  (similarity sc q (text n2) <= similarity sc q (text n1))%Z.

Global Instance better_dec sc q n1 n2 : Decision (better sc q n1 n2).
Proof. unfold better. apply _. Defined.

Definition index_nodes {Doc} (i : RIndex Doc) : list IndexNode :=
  match i with
  | FromNodes nodes _ => nodes
  | FromDocuments _ _ => []
  end.

Definition index_context {Doc} (i : RIndex Doc) : RServiceContext :=
  match i with
  | FromNodes _ sc => sc
  | FromDocuments _ sc => sc
  end.

(** Modelled from the spec: the retriever of a vector index is absent from
    the sources; [retriever.retrieve(q)] gives the [similarity_top_k]
    best-matching nodes. *)
Definition retrieve {Doc} (r : RRetriever Doc) (q : string) : list IndexNode :=
  take (similarity_top_k r)
    (merge_sort (better (index_context (retriever_index r)) q)
       (index_nodes (retriever_index r))).

(** Modelled from the spec: the response synthesizer is absent from the
    sources; compact mode condenses the retrieved texts into one context
    before generation. *)
Definition synthesize
    (other_modes : RSynthesizer -> string -> list string -> string)
    (s : RSynthesizer) (q : string) (texts : list string) : string :=
  if String.eqb (response_mode s) "compact"
  then generate (sc_llm (synthesizer_context s)) q (String.concat " " texts)
  else other_modes s q texts.

Section Reference.
Context (Doc : Type).
Context (default_context : RServiceContext).
Context (agent_answer : RAgent Doc -> string -> string).
Context (other_modes : RSynthesizer -> string -> list string -> string).
Context (no_match : exn + string).

(** The world is the invocation log of the sub-agents. *)
Definition Log : Type := list (RAgent Doc * string).

(** Modelled from the spec: agents are absent from the sources; a sub-agent
    records the invocation and answers. *)
Definition agent_query (a : RAgent Doc) (q : string) : M Log string :=
  fun log => (log ++ [(a, q)], inr (agent_answer a q)).

(** Modelled from the spec: the recursive retriever is absent from the
    sources; each routed node is delegated to the sub-agent of its key, with
    the same query text. *)
Fixpoint delegate (agents : gmap string (RAgent Doc)) (q : string)
    (hits : list IndexNode) : M Log (list string) :=
  match hits with
  | [] => ret []
  | n :: rest =>
      match agents !! index_id n with
      | Some a =>
          let* answer := agent_query a q in
          let* answers := delegate agents q rest in
          ret (answer :: answers)
      | None => raise (ValueError ("Query id not found: " +:+ index_id n))
      end
  end.

(** Modelled from the spec: the retriever query engine is absent from the
    sources; a query is resolved to a key, delegated to the sub-agent and
    the answer synthesized; with no match the outcome is undefined. *)
Definition engine_query (e : RQueryEngine Doc) (q : string) : M Log string :=
  let rr := engine_retriever e in
  match retriever_dict rr !! root_id rr with
  | None => raise (ValueError ("Root id not found: " +:+ root_id rr))
  | Some root =>
      match retrieve root q with
      | [] => lift no_match
      | hits =>
          let* answers := delegate (query_engine_dict rr) q hits in
          ret (synthesize other_modes (engine_synthesizer e) q answers)
      end
  end.

(** Modelled from the spec: the framework's constructors, which are absent
    from the sources, as objects that record their arguments. *)
Definition Reference : Framework := {|
  World := Log;
  Document := Doc;
  ServiceContext := RServiceContext;
  LLM := RLLM;
  VectorStoreIndex := RIndex Doc;
  SummaryIndex := RIndex Doc;
  QueryEngine := REngine Doc;
  Agent := RAgent Doc;
  Retriever := RRetriever Doc;
  RecursiveRetriever := RRecursiveRetriever Doc;
  ResponseSynthesizer := RSynthesizer;
  RetrieverQueryEngine := RQueryEngine Doc;
  Response := string;
  llm := fun sc => ret (sc_llm sc);
  ServiceContext_from_defaults := ret default_context;
  VectorStoreIndex_from_documents := fun docs sc => ret (FromDocuments docs sc);
  SummaryIndex_from_documents := fun docs sc => ret (FromDocuments docs sc);
  VectorStoreIndex_as_query_engine := fun i => ret (VectorEngine i);
  SummaryIndex_as_query_engine := fun i => ret (SummaryEngine i);
  from_tools := fun _ tools l verbose => ret (mkRAgent tools (Some l) verbose);
  VectorStoreIndex_init := fun nodes sc => ret (FromNodes nodes sc);
  as_retriever := fun i k => ret (mkRRetriever i k);
  RecursiveRetriever_init := fun root rd qd verbose =>
    ret (mkRRecursiveRetriever root rd qd verbose);
  get_response_synthesizer := fun sc mode => ret (mkRSynthesizer sc mode);
  RetrieverQueryEngine_from_args := fun rr s sc => ret (mkRQueryEngine rr s sc);
  RetrieverQueryEngine_query := engine_query
|}.

(** What the constructed hierarchy resolves a query to, and the sub-agent
    it holds for a key. *)
Definition routing_retriever (self : RecursiveRetrieverToolSpec Reference)
  : option (RRetriever Doc) :=
  let rr := engine_retriever (query_engine self) in
  retriever_dict rr !! root_id rr.

Definition routing_match (self : RecursiveRetrieverToolSpec Reference)
    (q : string) : list string :=
  match routing_retriever self with
  | Some r => index_id <$> retrieve r q
  | None => []
  end.

Definition sub_agent (self : RecursiveRetrieverToolSpec Reference)
    (key : string) : option (RAgent Doc) :=
  query_engine_dict (engine_retriever (query_engine self)) !! key.

End Reference.

Arguments routing_retriever {Doc default_context agent_answer other_modes no_match} _.
Arguments routing_match {Doc default_context agent_answer other_modes no_match} _ _.
Arguments sub_agent {Doc default_context agent_answer other_modes no_match} _ _.

(** ** A concrete scenario

    The spec's example: keys alpha and beta with one document each.
    Documents are strings; a routing node matches a query when the query
    text occurs in the node's text; a sub-agent answers with the
    descriptions of its tools; the language model returns its context. *)

Module Scenario.

Definition occurs (q t : string) : Z := if contains q t then 1%Z else 0%Z.

Definition echo : RLLM := mkRLLM (fun _ context => context).

Definition context : RServiceContext := mkRServiceContext occurs echo.

Definition answer (a : RAgent string) (_ : string) : string :=
  String.concat "; " (description <$> (tool_metadata <$> agent_tools a)).

Definition other (_ : RSynthesizer) (_ : string) (_ : list string) : string :=
  "".

Definition nothing : exn + string := inr "Empty Response".

Definition framework : Framework :=
  Reference string context answer other nothing.

Definition agent_documents : gmap string (list string) :=
  {[ "alpha" := ["doc1"]; "beta" := ["doc2"] ]}.

Definition agent : RAgent string := mkRAgent [] None false.

(** The sub-agent the factory makes for a key with one document. *)
Definition subagent (key doc : string) : RAgent string :=
  mkRAgent
    [ mkQueryEngineTool (VectorEngine (FromDocuments [doc] context))
        (mkToolMetadata "vector_tool"
           ("Useful for summarization questions related to " +:+ key));
      mkQueryEngineTool (SummaryEngine (FromDocuments [doc] context))
        (mkToolMetadata "summary_tool"
           ("Useful for retrieving specific context from " +:+ key)) ]
    (Some echo) true.

(** The tool spec the constructor builds from [agent_documents]. *)
Definition self : RecursiveRetrieverToolSpec framework :=
  mkToolSpec framework
    (mkRQueryEngine
       (mkRRecursiveRetriever "vector"
          {["vector" :=
              mkRRetriever
                (FromNodes [routing_node "alpha"; routing_node "beta"]
                   context)
                1]}
          {["alpha" := subagent "alpha" "doc1";
            "beta" := subagent "beta" "doc2"]}
          true)
       (mkRSynthesizer context "compact") context)
    {["alpha"; "beta"]}.


(** The engine the constructor builds from the empty mapping. *)
Definition hollow : RQueryEngine string :=
  mkRQueryEngine
    (mkRRecursiveRetriever "vector"
       {["vector" := mkRRetriever (FromNodes [] context) 1]} ∅ true)
    (mkRSynthesizer context "compact") context.

(** A framework whose index construction rejects an empty collection. *)
Definition strict : Framework :=
  let R := framework in
  mkFramework (World R) (Document R) (ServiceContext R) (LLM R)
    (VectorStoreIndex R) (SummaryIndex R) (QueryEngine R) (Agent R)
    (Retriever R) (RecursiveRetriever R) (ResponseSynthesizer R)
    (RetrieverQueryEngine R) (Response R)
    (llm R) (ServiceContext_from_defaults R)
    (fun docs sc =>
       match docs with
       | [] => raise (ValueError "empty collection")
       | _ => VectorStoreIndex_from_documents R docs sc
       end)
    (SummaryIndex_from_documents R)
    (VectorStoreIndex_as_query_engine R) (SummaryIndex_as_query_engine R)
    (from_tools R) (VectorStoreIndex_init R) (as_retriever R)
    (RecursiveRetriever_init R) (get_response_synthesizer R)
    (RetrieverQueryEngine_from_args R) (RetrieverQueryEngine_query R).

(** A framework whose vector index construction raises, naming the
    documents it was given. *)
Definition naming : Framework :=
  let R := framework in
  mkFramework (World R) (Document R) (ServiceContext R) (LLM R)
    (VectorStoreIndex R) (SummaryIndex R) (QueryEngine R) (Agent R)
    (Retriever R) (RecursiveRetriever R) (ResponseSynthesizer R)
    (RetrieverQueryEngine R) (Response R)
    (llm R) (ServiceContext_from_defaults R)
    (fun docs _ => raise (ValueError (String.concat ", " docs)))
    (SummaryIndex_from_documents R)
    (VectorStoreIndex_as_query_engine R) (SummaryIndex_as_query_engine R)
    (from_tools R) (VectorStoreIndex_init R) (as_retriever R)
    (RecursiveRetriever_init R) (get_response_synthesizer R)
    (RetrieverQueryEngine_from_args R) (RetrieverQueryEngine_query R).

(** Some id names both a retriever and a query engine. *)
Definition overlap {A B} (rd : gmap string A) (qd : gmap string B) : bool :=
  existsb (fun k => match qd !! k with Some _ => true | None => false end)
    (map_to_list rd).*1.

(** A framework whose recursive retriever refuses an id that names both a
    retriever and a query engine. *)
Definition checked : Framework :=
  let R := framework in
  mkFramework (World R) (Document R) (ServiceContext R) (LLM R)
    (VectorStoreIndex R) (SummaryIndex R) (QueryEngine R) (Agent R)
    (Retriever R) (RecursiveRetriever R) (ResponseSynthesizer R)
    (RetrieverQueryEngine R) (Response R)
    (llm R) (ServiceContext_from_defaults R)
    (VectorStoreIndex_from_documents R) (SummaryIndex_from_documents R)
    (VectorStoreIndex_as_query_engine R) (SummaryIndex_as_query_engine R)
    (from_tools R) (VectorStoreIndex_init R) (as_retriever R)
    (fun root rd qd verbose =>
       if overlap rd qd
       then raise
              (ValueError "Retriever and query engine ids must not overlap.")
       else RecursiveRetriever_init R root rd qd verbose)
    (get_response_synthesizer R)
    (RetrieverQueryEngine_from_args R) (RetrieverQueryEngine_query R).

End Scenario.

(** ** Runs of the sub-agent factory and of the constructor

    The values and worlds between the framework calls of one run, and the
    statement that each call of the run returned. *)

Record SubagentRun (F : Framework) : Type := mkSubagentRun {
  sub_vector_index : VectorStoreIndex F;
  sub_vector_engine : QueryEngine F;
  sub_summary_index : SummaryIndex F;
  sub_summary_engine : QueryEngine F;
  sub_tools : list (QueryEngineTool (QueryEngine F));
  sub_llm : LLM F;
  sub_w1 : World F;
  sub_w2 : World F;
  sub_w3 : World F;
  sub_w4 : World F;
  sub_w5 : World F
}.

Arguments mkSubagentRun {F} _ _ _ _ _ _ _ _ _ _ _.
Arguments sub_vector_index {F} _.
Arguments sub_vector_engine {F} _.
Arguments sub_summary_index {F} _.
Arguments sub_summary_engine {F} _.
Arguments sub_tools {F} _.
Arguments sub_w1 {F} _.
Arguments sub_w2 {F} _.
Arguments sub_w3 {F} _.
Arguments sub_w4 {F} _.
Arguments sub_w5 {F} _.
Arguments sub_llm {F} _.

Definition subagent_steps (F : Framework) (documents : list (Document F))
    (service_context : ServiceContext F) (key : string) (agent : Agent F)
    (w : World F) (r : SubagentRun F) (result : Agent F) (w' : World F)
  : Prop :=
  returns (VectorStoreIndex_from_documents F documents service_context)
    w (sub_vector_index r) (sub_w1 r)
  ∧ returns (VectorStoreIndex_as_query_engine F (sub_vector_index r))
      (sub_w1 r) (sub_vector_engine r) (sub_w2 r)
  ∧ returns (SummaryIndex_from_documents F documents service_context)
      (sub_w2 r) (sub_summary_index r) (sub_w3 r)
  ∧ returns (SummaryIndex_as_query_engine F (sub_summary_index r))
      (sub_w3 r) (sub_summary_engine r) (sub_w4 r)
  ∧ returns (llm F service_context) (sub_w4 r) (sub_llm r) (sub_w5 r)
  ∧ returns (from_tools F agent (sub_tools r) (sub_llm r) true)
      (sub_w5 r) result w'.

Record InitRun (F : Framework) : Type := mkInitRun {
  run_context : ServiceContext F;
  run_agents : gmap string (Agent F);
  run_nodes : list IndexNode;
  run_index : VectorStoreIndex F;
  run_vector_retriever : Retriever F;
  run_recursive_retriever : RecursiveRetriever F;
  run_synthesizer : ResponseSynthesizer F;
  run_w0 : World F;
  run_w1 : World F;
  run_w2 : World F;
  run_w3 : World F;
  run_w4 : World F;
  run_w5 : World F
}.

Arguments mkInitRun {F} _ _ _ _ _ _ _ _ _ _ _ _ _.
Arguments run_context {F} _.
Arguments run_agents {F} _.
Arguments run_nodes {F} _.
Arguments run_index {F} _.
Arguments run_vector_retriever {F} _.
Arguments run_recursive_retriever {F} _.
Arguments run_synthesizer {F} _.
Arguments run_w0 {F} _.
Arguments run_w1 {F} _.
Arguments run_w2 {F} _.
Arguments run_w3 {F} _.
Arguments run_w4 {F} _.
Arguments run_w5 {F} _.

Definition context_step (F : Framework)
    (service_context : option (ServiceContext F)) (w : World F)
    (sc : ServiceContext F) (w0 : World F) : Prop :=
  match service_context with
  | Some given => sc = given ∧ w0 = w
  | None => returns (ServiceContext_from_defaults F) w sc w0
  end.

Definition items_steps (F : Framework)
    (items : list (string * list (Document F))) (agent : Agent F)
    (service_context : option (ServiceContext F)) (w : World F)
    (r : InitRun F) (self : RecursiveRetrieverToolSpec F) (w' : World F)
  : Prop :=
  context_step F service_context w (run_context r) (run_w0 r)
  ∧ returns (init_loop F items (run_context r) agent ∅ [])
      (run_w0 r) (run_agents r, run_nodes r) (run_w1 r)
  ∧ returns (VectorStoreIndex_init F (run_nodes r) (run_context r))
      (run_w1 r) (run_index r) (run_w2 r)
  ∧ returns (as_retriever F (run_index r) 1)
      (run_w2 r) (run_vector_retriever r) (run_w3 r)
  ∧ returns (RecursiveRetriever_init F "vector"
               {["vector" := run_vector_retriever r]} (run_agents r) true)
      (run_w3 r) (run_recursive_retriever r) (run_w4 r)
  ∧ returns (get_response_synthesizer F (run_context r) "compact")
      (run_w4 r) (run_synthesizer r) (run_w5 r)
  ∧ returns (RetrieverQueryEngine_from_args F (run_recursive_retriever r)
               (run_synthesizer r) (run_context r))
      (run_w5 r) (query_engine self) w'
  ∧ keys self = dom (run_agents r).

Definition init_steps (F : Framework)
    (agent_documents : gmap string (list (Document F))) (agent : Agent F)
    (service_context : option (ServiceContext F)) (w : World F)
    (r : InitRun F) (self : RecursiveRetrieverToolSpec F) (w' : World F)
  : Prop :=
  items_steps F (map_to_list agent_documents) agent service_context w r self
    w'.

(** ** Exceptional runs

    The point at which a run stops: every call before it returned and the
    call at that point raised.  One constructor per call, in the order of
    the source. *)

Inductive subagent_raise (F : Framework) (documents : list (Document F))
    (service_context : ServiceContext F) (key : string) (agent : Agent F)
    (w : World F) (e : exn) (w' : World F) : Prop :=
  | raise_vector_index :
      raises (VectorStoreIndex_from_documents F documents service_context)
        w e w' ->
      subagent_raise F documents service_context key agent w e w'
  | raise_vector_engine vi w1 :
      returns (VectorStoreIndex_from_documents F documents service_context)
        w vi w1 ->
      raises (VectorStoreIndex_as_query_engine F vi) w1 e w' ->
      subagent_raise F documents service_context key agent w e w'
  | raise_summary_index vi w1 ve w2 :
      returns (VectorStoreIndex_from_documents F documents service_context)
        w vi w1 ->
      returns (VectorStoreIndex_as_query_engine F vi) w1 ve w2 ->
      raises (SummaryIndex_from_documents F documents service_context)
        w2 e w' ->
      subagent_raise F documents service_context key agent w e w'
  | raise_summary_engine vi w1 ve w2 si w3 :
      returns (VectorStoreIndex_from_documents F documents service_context)
        w vi w1 ->
      returns (VectorStoreIndex_as_query_engine F vi) w1 ve w2 ->
      returns (SummaryIndex_from_documents F documents service_context)
        w2 si w3 ->
      raises (SummaryIndex_as_query_engine F si) w3 e w' ->
      subagent_raise F documents service_context key agent w e w'
  | raise_llm vi w1 ve w2 si w3 se w4 :
      returns (VectorStoreIndex_from_documents F documents service_context)
        w vi w1 ->
      returns (VectorStoreIndex_as_query_engine F vi) w1 ve w2 ->
      returns (SummaryIndex_from_documents F documents service_context)
        w2 si w3 ->
      returns (SummaryIndex_as_query_engine F si) w3 se w4 ->
      raises (llm F service_context) w4 e w' ->
      subagent_raise F documents service_context key agent w e w'
  | raise_from_tools vi w1 ve w2 si w3 se w4 model w5 :
      returns (VectorStoreIndex_from_documents F documents service_context)
        w vi w1 ->
      returns (VectorStoreIndex_as_query_engine F vi) w1 ve w2 ->
      returns (SummaryIndex_from_documents F documents service_context)
        w2 si w3 ->
      returns (SummaryIndex_as_query_engine F si) w3 se w4 ->
      returns (llm F service_context) w4 model w5 ->
      raises (from_tools F agent
                [ mkQueryEngineTool ve
                    (mkToolMetadata "vector_tool"
                       ("Useful for summarization questions related to "
                        +:+ key));
                  mkQueryEngineTool se
                    (mkToolMetadata "summary_tool"
                       ("Useful for retrieving specific context from "
                        +:+ key)) ]
                model true) w5 e w' ->
      subagent_raise F documents service_context key agent w e w'.

(** The loop stops at the first item whose sub-agent cannot be made. *)
Inductive loop_raise (F : Framework) (service_context : ServiceContext F)
    (agent : Agent F)
  : list (string * list (Document F)) -> World F -> exn -> World F -> Prop :=
  | raise_here key documents rest w e w' :
      subagent_raise F documents service_context key agent w e w' ->
      loop_raise F service_context agent ((key, documents) :: rest) w e w'
  | raise_later key documents rest w a w1 e w' :
      returns (_create_subagent F documents service_context key agent)
        w a w1 ->
      loop_raise F service_context agent rest w1 e w' ->
      loop_raise F service_context agent ((key, documents) :: rest) w e w'.

Inductive init_raise (F : Framework)
    (items : list (string * list (Document F))) (agent : Agent F)
    (service_context : option (ServiceContext F)) (w : World F) (e : exn)
    (w' : World F) : Prop :=
  | raise_defaults :
      service_context = None ->
      raises (ServiceContext_from_defaults F) w e w' ->
      init_raise F items agent service_context w e w'
  | raise_loop sc w0 :
      context_step F service_context w sc w0 ->
      loop_raise F sc agent items w0 e w' ->
      init_raise F items agent service_context w e w'
  | raise_index sc w0 agents nodes w1 :
      context_step F service_context w sc w0 ->
      returns (init_loop F items sc agent ∅ []) w0 (agents, nodes) w1 ->
      raises (VectorStoreIndex_init F nodes sc) w1 e w' ->
      init_raise F items agent service_context w e w'
  | raise_retriever sc w0 agents nodes w1 index w2 :
      context_step F service_context w sc w0 ->
      returns (init_loop F items sc agent ∅ []) w0 (agents, nodes) w1 ->
      returns (VectorStoreIndex_init F nodes sc) w1 index w2 ->
      raises (as_retriever F index 1) w2 e w' ->
      init_raise F items agent service_context w e w'
  | raise_recursive_retriever sc w0 agents nodes w1 index w2 vr w3 :
      context_step F service_context w sc w0 ->
      returns (init_loop F items sc agent ∅ []) w0 (agents, nodes) w1 ->
      returns (VectorStoreIndex_init F nodes sc) w1 index w2 ->
      returns (as_retriever F index 1) w2 vr w3 ->
      raises (RecursiveRetriever_init F "vector" {["vector" := vr]} agents
                true) w3 e w' ->
      init_raise F items agent service_context w e w'
  | raise_synthesizer sc w0 agents nodes w1 index w2 vr w3 rr w4 :
      context_step F service_context w sc w0 ->
      returns (init_loop F items sc agent ∅ []) w0 (agents, nodes) w1 ->
      returns (VectorStoreIndex_init F nodes sc) w1 index w2 ->
      returns (as_retriever F index 1) w2 vr w3 ->
      returns (RecursiveRetriever_init F "vector" {["vector" := vr]} agents
                 true) w3 rr w4 ->
      raises (get_response_synthesizer F sc "compact") w4 e w' ->
      init_raise F items agent service_context w e w'
  | raise_from_args sc w0 agents nodes w1 index w2 vr w3 rr w4 rs w5 :
      context_step F service_context w sc w0 ->
      returns (init_loop F items sc agent ∅ []) w0 (agents, nodes) w1 ->
      returns (VectorStoreIndex_init F nodes sc) w1 index w2 ->
      returns (as_retriever F index 1) w2 vr w3 ->
      returns (RecursiveRetriever_init F "vector" {["vector" := vr]} agents
                 true) w3 rr w4 ->
      returns (get_response_synthesizer F sc "compact") w4 rs w5 ->
      raises (RetrieverQueryEngine_from_args F rr rs sc) w5 e w' ->
      init_raise F items agent service_context w e w'.

(** * Properties *)

(** ** The monad *)

Lemma bind_returns {W A B} (m : M W A) (k : A -> M W B) w b w' :
  returns (bind m k) w b w' <->
  exists a w1, returns m w a w1 /\ returns (k a) w1 b w'.
Proof.
  unfold returns, bind. split.
  - destruct (m w) as [w1 [e|a]]; [discriminate|]. eauto.
  - intros (a & w1 & -> & Hk). exact Hk.
Qed.

Lemma bind_raises {W A B} (m : M W A) (k : A -> M W B) w e w' :
  raises (bind m k) w e w' <->
  raises m w e w' \/ exists a w1, returns m w a w1 /\ raises (k a) w1 e w'.
Proof.
  unfold raises, returns, bind. split.
  - destruct (m w) as [w1 [e1|a]]; [left; congruence | right; eauto].
  - intros [-> | (a & w1 & -> & Hk)]; [reflexivity | exact Hk].
Qed.

Lemma ret_returns {W A} (a b : A) (w w' : W) :
  returns (ret a) w b w' <-> b = a /\ w' = w.
Proof. unfold returns, ret. split; [intros [= -> ->] | intros [-> ->]]; done. Qed.

Lemma ret_raises {W A} (a : A) (w w' : W) e : ~ raises (ret a) w e w'.
Proof. unfold raises, ret. congruence. Qed.

Lemma lift_returns {W A} (r : exn + A) (w w' : W) a :
  returns (lift r) w a w' <-> r = inr a /\ w' = w.
Proof. unfold returns, lift. split; [intros [= -> ->] | intros [-> ->]]; done. Qed.

Lemma lift_raises {W A} (r : exn + A) (w w' : W) e :
  raises (lift (W := W) r) w e w' <-> r = inl e /\ w' = w.
Proof. unfold raises, lift. split; [intros [= -> ->] | intros [-> ->]]; done. Qed.

(** ** String formatting *)

Lemma format_default_summary key :
  str_format DEFAULT_SUMMARY [("key", key)] = inr (summary_of key).
Proof. reflexivity. Qed.

Example format_escapes :
  str_format "a{{b}}{k}" [("k", "v")] = inr "a{b}v".
Proof. reflexivity. Qed.

Example format_missing_keyword :
  str_format "{x} and {k}" [("k", "v")] = inl (KeyError "x").
Proof. reflexivity. Qed.

Example format_positional :
  str_format "{0}" [("k", "v")] = inl (positional_error "0").
Proof. reflexivity. Qed.

Example format_key_with_braces :
  str_format "about {key}." [("key", "{x}")] = inr "about {x}.".
Proof. reflexivity. Qed.

Lemma prefix_app (s t : string) : String.prefix s (s +:+ t) = true.
Proof.
  induction s as [|c s IH]; simpl.
  - by destruct t.
  - destruct (ascii_dec c c); [exact IH | done].
Qed.

Lemma contains_unfold (sub s : string) :
  contains sub s =
  if String.prefix sub s then true
  else match s with
       | EmptyString => false
       | String _ rest => contains sub rest
       end.
Proof. by destruct s. Qed.

Lemma contains_app (pre sub post : string) :
  contains sub (pre +:+ sub +:+ post) = true.
Proof.
  induction pre as [|c pre IH]; rewrite contains_unfold.
  - change ("" +:+ sub +:+ post) with (sub +:+ post).
    by rewrite prefix_app.
  - change (String c pre +:+ sub +:+ post)
      with (String c (pre +:+ sub +:+ post)).
    destruct (String.prefix _ _); [done | exact IH].
Qed.

Lemma contains_suffix (pre sub : string) : contains sub (pre +:+ sub) = true.
Proof.
  rewrite <- (contains_app pre sub "").
  f_equal. f_equal. clear. induction sub as [|c s IH]; [done|].
  change (String c s +:+ "") with (String c (s +:+ "")). by rewrite <- IH.
Qed.

Lemma summary_about key : contains ("about " +:+ key) (summary_of key) = true.
Proof.
  exact (contains_app "
This content contains information " ("about " +:+ key) (".
Use this index if you need to lookup specific facts about " +:+ key +:+ ".
Do not use this index if you want to analyze multiple keys.
")).
Qed.

(** ** The sub-agent factory *)

Tactic Notation "step_returns" hyp(H) ident(x) ident(w) ident(H1) :=
  apply bind_returns in H as (x & w & H1 & H).

Lemma create_subagent_returns F documents sc key agent w a w' :
  returns (_create_subagent F documents sc key agent) w a w' <->
  exists r : SubagentRun F,
    subagent_steps F documents sc key agent w r a w'
    /\ sub_tools r =
       [ mkQueryEngineTool (sub_vector_engine r)
           (mkToolMetadata "vector_tool"
              ("Useful for summarization questions related to " +:+ key));
         mkQueryEngineTool (sub_summary_engine r)
           (mkToolMetadata "summary_tool"
              ("Useful for retrieving specific context from " +:+ key)) ].
Proof.
  unfold _create_subagent, subagent_steps. split.
  - intros H.
    step_returns H vi w1 H1. step_returns H ve w2 H2.
    step_returns H si w3 H3. step_returns H se w4 H4.
    step_returns H model w5 H5.
    eexists (mkSubagentRun vi ve si se _ model w1 w2 w3 w4 w5). simpl.
    split; [|reflexivity]. eauto 10.
  - intros (r & (H1 & H2 & H3 & H4 & H5 & H6) & Ht). rewrite Ht in H6.
    apply bind_returns. do 2 eexists. split; [exact H1|].
    apply bind_returns. do 2 eexists. split; [exact H2|].
    apply bind_returns. do 2 eexists. split; [exact H3|].
    apply bind_returns. do 2 eexists. split; [exact H4|].
    apply bind_returns. do 2 eexists. split; [exact H5|]. exact H6.
Qed.

(** ** The constructor's loop *)

Lemma init_loop_returns F items sc agent agents nodes w agents' nodes' w' :
  returns (init_loop F items sc agent agents nodes) w (agents', nodes') w' ->
  nodes' = nodes ++ (routing_node <$> items.*1)
  /\ dom agents' = dom agents ∪ list_to_set items.*1
  /\ (forall k, k ∉ items.*1 -> agents' !! k = agents !! k)
  /\ (NoDup items.*1 ->
      forall k documents, (k, documents) ∈ items ->
        exists a w1 w2,
          agents' !! k = Some a
          /\ returns (_create_subagent F documents sc k agent) w1 a w2).
Proof.
  revert agents nodes w.
  induction items as [|[key documents] rest IH]; intros agents nodes w H.
  - apply ret_returns in H as [[= -> ->] ->]. simpl.
    rewrite app_nil_r. repeat split.
    + by rewrite (right_id_L ∅ (∪)).
    + intros _ k d Hin. by apply elem_of_nil in Hin.
  - simpl in H. step_returns H a w1 Ha. step_returns H s w2 Hs.
    apply lift_returns in Hs as [Hs ->].
    rewrite format_default_summary in Hs. injection Hs as <-.
    apply IH in H as (Hn & Hd & Hout & Hin). simpl. repeat split.
    + by rewrite Hn, <- app_assoc.
    + rewrite Hd, dom_insert_L, (comm_L (∪) {[key]}).
      by rewrite <- (assoc_L (∪)).
    + intros k Hk. apply not_elem_of_cons in Hk as [Hne Hk].
      rewrite (Hout k Hk). by apply lookup_insert_ne.
    + intros Hnd k d Hkd. apply NoDup_cons in Hnd as [Hfresh Hnd].
      apply elem_of_cons in Hkd as [[= -> ->] | Hkd].
      * exists a, w, w1. split; [|exact Ha].
        rewrite (Hout key Hfresh). apply lookup_insert_eq.
      * by apply (Hin Hnd).
Qed.

(** ** The constructor *)

Lemma context_returns F (osc : option (ServiceContext F)) w sc w0 :
  returns (match osc with
           | Some given => ret given
           | None => ServiceContext_from_defaults F
           end) w sc w0 <->
  context_step F osc w sc w0.
Proof.
  unfold context_step. destruct osc; [apply ret_returns | done].
Qed.

Lemma init_items_returns F items agent osc w self w' :
  returns (init_items F items agent osc) w self w' <->
  exists r : InitRun F, items_steps F items agent osc w r self w'.
Proof.
  unfold init_items, items_steps. split.
  - intros H.
    step_returns H sc w0 H0. apply context_returns in H0.
    step_returns H built w1 H1. destruct built as [agents nodes].
    step_returns H index w2 H2. step_returns H vr w3 H3.
    step_returns H rr w4 H4. step_returns H rs w5 H5.
    step_returns H engine w6 H6.
    apply ret_returns in H as [-> ->].
    exists (mkInitRun sc agents nodes index vr rr rs w0 w1 w2 w3 w4 w5).
    simpl in *. eauto 10.
  - intros (r & H0 & H1 & H2 & H3 & H4 & H5 & H6 & Hk).
    apply context_returns in H0.
    apply bind_returns. do 2 eexists. split; [exact H0|].
    apply bind_returns. do 2 eexists. split; [exact H1|].
    apply bind_returns. do 2 eexists. split; [exact H2|].
    apply bind_returns. do 2 eexists. split; [exact H3|].
    apply bind_returns. do 2 eexists. split; [exact H4|].
    apply bind_returns. do 2 eexists. split; [exact H5|].
    apply bind_returns. do 2 eexists. split; [exact H6|].
    apply ret_returns. split; [|done].
    destruct self as [qe ks]. simpl in *. by rewrite Hk.
Qed.


Lemma init_returns F agent_documents agent osc w self w' :
  returns (__init__ F agent_documents agent osc) w self w' <->
  exists r : InitRun F, init_steps F agent_documents agent osc w r self w'.
Proof. apply init_items_returns. Qed.

(** ** Exceptional runs *)

Ltac pass_call :=
  apply bind_raises; right; do 2 eexists; split; [eassumption|].

Ltac stop_call := apply bind_raises; left; eassumption.

Lemma create_subagent_raises F documents sc key agent w e w' :
  raises (_create_subagent F documents sc key agent) w e w' <->
  subagent_raise F documents sc key agent w e w'.
Proof.
  unfold _create_subagent. split.
  - intros H.
    apply bind_raises in H as [H | (vi & w1 & H1 & H)];
      [by apply raise_vector_index|].
    apply bind_raises in H as [H | (ve & w2 & H2 & H)];
      [by eapply raise_vector_engine|].
    apply bind_raises in H as [H | (si & w3 & H3 & H)];
      [by eapply raise_summary_index|].
    apply bind_raises in H as [H | (se & w4 & H4 & H)];
      [by eapply raise_summary_engine|].
    apply bind_raises in H as [H | (model & w5 & H5 & H)];
      [by eapply raise_llm|].
    by eapply raise_from_tools.
  - intros [H | vi w1 H1 H | vi w1 ve w2 H1 H2 H
            | vi w1 ve w2 si w3 H1 H2 H3 H
            | vi w1 ve w2 si w3 se w4 H1 H2 H3 H4 H
            | vi w1 ve w2 si w3 se w4 model w5 H1 H2 H3 H4 H5 H].
    + stop_call.
    + pass_call. stop_call.
    + do 2 pass_call. stop_call.
    + do 3 pass_call. stop_call.
    + do 4 pass_call. stop_call.
    + do 5 pass_call. exact H.
Qed.

Lemma init_loop_raises F items sc agent agents nodes w e w' :
  raises (init_loop F items sc agent agents nodes) w e w' <->
  loop_raise F sc agent items w e w'.
Proof.
  revert agents nodes w.
  induction items as [|[key documents] rest IH]; intros agents nodes w.
  - split; [intros H; by apply ret_raises in H | inversion 1].
  - simpl. split.
    + intros H.
      apply bind_raises in H as [H | (a & w1 & Ha & H)].
      { apply raise_here. by apply create_subagent_raises. }
      apply bind_raises in H as [H | (s & w2 & Hs & H)].
      { apply lift_raises in H as [H _].
        by rewrite format_default_summary in H. }
      apply lift_returns in Hs as [_ ->].
      eapply raise_later; [exact Ha|]. by eapply IH.
    + inversion 1 as [? ? ? ? ? ? Hs | ? ? ? ? a w1 ? ? Ha Hl]; subst.
      * apply bind_raises. left. by apply create_subagent_raises.
      * pass_call. apply bind_raises. right.
        exists (summary_of key), w1. split.
        { apply lift_returns. by rewrite format_default_summary. }
        by apply IH.
Qed.

Lemma init_raises F items agent osc w e w' :
  raises (init_items F items agent osc) w e w' <->
  init_raise F items agent osc w e w'.
Proof.
  unfold init_items. split.
  - intros H.
    apply bind_raises in H as [H | (sc & w0 & H0 & H)].
    { destruct osc; [by apply ret_raises in H | by apply raise_defaults]. }
    apply context_returns in H0.
    apply bind_raises in H as [H | ([agents nodes] & w1 & H1 & H)].
    { eapply raise_loop; [exact H0|]. by eapply init_loop_raises. }
    apply bind_raises in H as [H | (index & w2 & H2 & H)];
      [by eapply raise_index|].
    apply bind_raises in H as [H | (vr & w3 & H3 & H)];
      [by eapply raise_retriever|].
    apply bind_raises in H as [H | (rr & w4 & H4 & H)];
      [by eapply raise_recursive_retriever|].
    apply bind_raises in H as [H | (rs & w5 & H5 & H)];
      [by eapply raise_synthesizer|].
    apply bind_raises in H as [H | (engine & w6 & H6 & H)];
      [by eapply raise_from_args|].
    by apply ret_raises in H.
  - intros [-> H | sc w0 H0 H
            | sc w0 agents nodes w1 H0 H1 H
            | sc w0 agents nodes w1 index w2 H0 H1 H2 H
            | sc w0 agents nodes w1 index w2 vr w3 H0 H1 H2 H3 H
            | sc w0 agents nodes w1 index w2 vr w3 rr w4 H0 H1 H2 H3 H4 H
            | sc w0 agents nodes w1 index w2 vr w3 rr w4 rs w5
                H0 H1 H2 H3 H4 H5 H];
      try apply context_returns in H0.
    + stop_call.
    + pass_call. apply bind_raises. left. by eapply init_loop_raises.
    + do 2 pass_call. stop_call.
    + do 3 pass_call. stop_call.
    + do 4 pass_call. stop_call.
    + do 5 pass_call. stop_call.
    + do 6 pass_call. stop_call.
Qed.

(** ** What a completed construction holds *)

Lemma init_run_facts F agent_documents agent osc w r self w' :
  init_steps F agent_documents agent osc w r self w' ->
  run_nodes r = routing_node <$> (map_to_list agent_documents).*1
  /\ dom (run_agents r) = dom agent_documents
  /\ (forall k documents,
        agent_documents !! k = Some documents ->
        exists a w1 w2,
          run_agents r !! k = Some a
          /\ returns (_create_subagent F documents (run_context r) k agent)
               w1 a w2).
Proof.
  intros (_ & Hloop & _).
  apply init_loop_returns in Hloop as (Hn & Hd & _ & Hin).
  split; [exact Hn|]. split.
  - rewrite Hd, dom_empty_L, (left_id_L ∅ (∪)).
    symmetry. apply leibniz_equiv, dom_alt.
  - intros k d Hk. apply (Hin (NoDup_fst_map_to_list _)).
    by apply elem_of_map_to_list.
Qed.

Lemma routing_ids (ks : list string) : index_id <$> (routing_node <$> ks) = ks.
Proof. induction ks as [|k ks IH]; [done|]. csimpl. by f_equal. Qed.

Lemma constructed_keys F agent_documents agent osc w self w' :
  returns (__init__ F agent_documents agent osc) w self w' ->
  query_keys self = dom agent_documents.
Proof.
  intros H. apply init_returns in H as (r & Hr).
  pose proof (init_run_facts _ _ _ _ _ _ _ _ Hr) as (_ & Hd & _).
  destruct Hr as (_ & _ & _ & _ & _ & _ & _ & Hk).
  unfold query_keys. by rewrite Hk.
Qed.

(** C1: after a construction over the mapping [agent_documents],
    [query_keys()] is exactly the key set of the mapping: a key is in the
    returned collection if and only if the mapping has an entry for it. *)
Theorem query_keys_exact F agent_documents agent osc w self w' :
  returns (__init__ F agent_documents agent osc) w self w' ->
  query_keys self = dom agent_documents
  /\ forall k, k ∈ query_keys self <-> is_Some (agent_documents !! k).
Proof.
  intros H. rewrite (constructed_keys _ _ _ _ _ _ _ H).
  split; [done|]. intros k. apply elem_of_dom.
Qed.

(** C2: after a construction the routing nodes are in bijection with the
    sub-agent keys: the identifiers of the nodes given to the routing index
    are pairwise distinct, they are a rearrangement of the keys of the
    sub-agent map, the number of nodes is the number of keys of the input
    mapping, and the sub-agent map has exactly the keys of the input. *)
Theorem routing_nodes_biject_keys F agent_documents agent osc w self w' :
  returns (__init__ F agent_documents agent osc) w self w' ->
  exists r : InitRun F,
    init_steps F agent_documents agent osc w r self w'
    /\ NoDup (index_id <$> run_nodes r)
    /\ index_id <$> run_nodes r ≡ₚ elements (dom (run_agents r))
    /\ (forall k, k ∈ index_id <$> run_nodes r <-> k ∈ dom (run_agents r))
    /\ length (run_nodes r) = size agent_documents
    /\ size (run_agents r) = size agent_documents
    /\ dom (run_agents r) = dom agent_documents.
Proof.
  intros H. apply init_returns in H as (r & Hr). exists r.
  pose proof (init_run_facts _ _ _ _ _ _ _ _ Hr) as (Hn & Hd & _).
  assert (Hids : index_id <$> run_nodes r = (map_to_list agent_documents).*1)
    by (by rewrite Hn, routing_ids).
  assert (Hnd : NoDup (index_id <$> run_nodes r))
    by (rewrite Hids; apply NoDup_fst_map_to_list).
  assert (Hmem : forall k, k ∈ index_id <$> run_nodes r <-> k ∈ dom (run_agents r)).
  { intros k. by rewrite Hids, Hd, (dom_alt agent_documents), elem_of_list_to_set. }
  split; [exact Hr|]. split; [exact Hnd|]. split; [|split; [exact Hmem|]].
  - apply NoDup_Permutation; [done | apply NoDup_elements |].
    intros k. by rewrite Hmem, elem_of_elements.
  - split; [|split; [|exact Hd]].
    + by rewrite Hn, !length_fmap, length_map_to_list.
    + by rewrite <- !size_dom, Hd.
Qed.

(** C3: when the sub-agent factory returns an agent for a key and a
    document list, the agent was made by [from_tools] from exactly two
    tools: the first wraps the query engine of a vector index built from
    the given documents, the second the query engine of a summary index
    built from the same documents, and the description of each of the two
    tools contains the key. *)
Theorem subagent_has_two_tools F documents sc key agent w a w' :
  returns (_create_subagent F documents sc key agent) w a w' ->
  exists r : SubagentRun F,
    subagent_steps F documents sc key agent w r a w'
    /\ length (sub_tools r) = 2
    /\ tool_query_engine <$> sub_tools r
       = [sub_vector_engine r; sub_summary_engine r]
    /\ Forall (fun t => contains key (description (tool_metadata t)) = true)
         (sub_tools r).
Proof.
  intros H. apply create_subagent_returns in H as (r & Hr & Ht).
  exists r. split; [exact Hr|]. rewrite Ht.
  split; [done|]. split; [done|].
  do 2 (constructor; [apply contains_suffix|]). constructor.
Qed.

(** C10: the two tools of every sub-agent are named "vector_tool" and
    "summary_tool" whatever the key, and the descriptions are crossed with
    respect to the engines: the tool named "vector_tool" wraps the
    vector-index engine and is described as useful for summarization
    questions, the tool named "summary_tool" wraps the summary-index engine
    and is described as useful for retrieving specific context. *)
Theorem subagent_tools_cross_described F documents sc key agent w a w' :
  returns (_create_subagent F documents sc key agent) w a w' ->
  exists r : SubagentRun F,
    subagent_steps F documents sc key agent w r a w'
    /\ sub_tools r =
       [ mkQueryEngineTool (sub_vector_engine r)
           (mkToolMetadata "vector_tool"
              ("Useful for summarization questions related to " +:+ key));
         mkQueryEngineTool (sub_summary_engine r)
           (mkToolMetadata "summary_tool"
              ("Useful for retrieving specific context from " +:+ key)) ]
    /\ name <$> (tool_metadata <$> sub_tools r)
       = ["vector_tool"; "summary_tool"].
Proof.
  intros H. apply create_subagent_returns in H as (r & Hr & Ht).
  exists r. split; [exact Hr|]. split; [exact Ht|]. by rewrite Ht.
Qed.

(** C5: in a construction the routing index is built from one node per key
    of the mapping; a node's identifier is its key and its text is
    [DEFAULT_SUMMARY] formatted with that key, that is the three template
    lines with the key in place of both fields; the nodes handed to the
    index are the ones the loop built, unchanged. *)
Theorem routing_node_text_and_id F agent_documents agent osc w self w' :
  returns (__init__ F agent_documents agent osc) w self w' ->
  exists r : InitRun F,
    init_steps F agent_documents agent osc w r self w'
    /\ (forall n, n ∈ run_nodes r ->
          is_Some (agent_documents !! index_id n)
          /\ str_format DEFAULT_SUMMARY [("key", index_id n)] = inr (text n)
          /\ text n = summary_of (index_id n)
          /\ contains ("about " +:+ index_id n) (text n) = true)
    /\ (forall k, is_Some (agent_documents !! k) ->
          exists n, n ∈ run_nodes r /\ index_id n = k
                    /\ forall n', n' ∈ run_nodes r -> index_id n' = k -> n' = n).
Proof.
  intros H. apply init_returns in H as (r & Hr). exists r.
  pose proof (init_run_facts _ _ _ _ _ _ _ _ Hr) as (Hn & _ & _).
  split; [exact Hr|]. rewrite Hn. split.
  - intros n Hin. apply list_elem_of_fmap in Hin as (k & -> & Hk).
    apply list_elem_of_fmap in Hk as ([k' d] & -> & Hk).
    apply elem_of_map_to_list in Hk. simpl.
    split; [by exists d|]. split; [apply format_default_summary|].
    split; [done | apply summary_about].
  - intros k [d Hk]. exists (routing_node k). split; [|split; [done|]].
    + apply list_elem_of_fmap. exists k. split; [done|].
      apply list_elem_of_fmap. exists (k, d). split; [done|].
      by apply elem_of_map_to_list.
    + intros n' Hin <-. by apply list_elem_of_fmap in Hin as (k' & -> & _).
Qed.

(** C8: no function of the tool spec handles, replaces or hides a failure.
    [query] is the framework's query call, so it raises what that call
    raises.  The sub-agent factory, and the constructor on the items of the
    input in whatever order the dict holds them, raise [e] in world [w']
    exactly when one of their framework calls, reached after all the calls
    before it returned, raised [e] and left [w']; and they return only when
    every call of the run returned. *)
Theorem failures_propagate_unmodified F :
  (forall self q w e w',
     raises (query (F := F) self q) w e w' <->
     raises (RetrieverQueryEngine_query F (query_engine self) q) w e w')
  /\ (forall documents sc key agent w e w',
        raises (_create_subagent F documents sc key agent) w e w' <->
        subagent_raise F documents sc key agent w e w')
  /\ (forall items agent osc w e w',
        raises (init_items F items agent osc) w e w' <->
        init_raise F items agent osc w e w')
  /\ (forall documents sc key agent w a w',
        returns (_create_subagent F documents sc key agent) w a w' ->
        exists r, subagent_steps F documents sc key agent w r a w')
  /\ (forall items agent osc w self w',
        returns (init_items F items agent osc) w self w' ->
        exists r, items_steps F items agent osc w r self w').
Proof.
  split; [done|]. split; [apply create_subagent_raises|].
  split; [apply init_raises|]. split.
  - intros * H. apply create_subagent_returns in H as (r & Hr & _). eauto.
  - intros * H. by apply init_items_returns.
Qed.

(** C9: over the empty mapping the constructor makes no sub-agent; when the
    framework builds the routing index over no nodes and the engine over no
    sub-agents, the construction returns a tool spec whose [query_keys()]
    is empty, and [query] on it is whatever the framework's query call
    does. *)
Theorem empty_mapping_constructs F agent osc w sc w0 index w2 vr w3 rr w4
    rs w5 engine w6 :
  context_step F osc w sc w0 ->
  returns (VectorStoreIndex_init F [] sc) w0 index w2 ->
  returns (as_retriever F index 1) w2 vr w3 ->
  returns (RecursiveRetriever_init F "vector" {["vector" := vr]} ∅ true)
    w3 rr w4 ->
  returns (get_response_synthesizer F sc "compact") w4 rs w5 ->
  returns (RetrieverQueryEngine_from_args F rr rs sc) w5 engine w6 ->
  exists self,
    returns (__init__ F ∅ agent osc) w self w6
    /\ query_keys self = ∅
    /\ forall q, query self q = RetrieverQueryEngine_query F engine q.
Proof.
  intros H0 H2 H3 H4 H5 H6. exists (mkToolSpec F engine ∅).
  split; [|done]. apply init_returns.
  exists (mkInitRun sc ∅ [] index vr rr rs w0 w0 w2 w3 w4 w5).
  unfold init_steps, items_steps. simpl.
  rewrite map_to_list_empty, dom_empty_L.
  split; [exact H0|]. split; [by apply ret_returns|]. eauto 10.
Qed.

(** ** The reference framework *)

Lemma append_inj (pre s t : string) : pre +:+ s = pre +:+ t -> s = t.
Proof.
  induction pre as [|c pre IH]; [done|].
  intros [= H]. by apply IH.
Qed.

Global Instance better_total sc q : Total (better sc q).
Proof. intros n1 n2. unfold better. lia. Qed.

Global Instance better_trans sc q : Transitive (better sc q).
Proof. intros n1 n2 n3. unfold better. lia. Qed.

Section ReferenceProperties.
Context (Doc : Type).
Context (default_context : RServiceContext).
Context (agent_answer : RAgent Doc -> string -> string).
Context (other_modes : RSynthesizer -> string -> list string -> string).
Context (no_match : exn + string).

Local Abbreviation R :=
  (Reference Doc default_context agent_answer other_modes no_match).

Lemma reference_subagent documents sc key agent (w : World R) a w' :
  returns (_create_subagent R documents sc key agent) w a w' ->
  w' = w
  /\ a = mkRAgent
           [ mkQueryEngineTool (VectorEngine (FromDocuments documents sc))
               (mkToolMetadata "vector_tool"
                  ("Useful for summarization questions related to " +:+ key));
             mkQueryEngineTool (SummaryEngine (FromDocuments documents sc))
               (mkToolMetadata "summary_tool"
                  ("Useful for retrieving specific context from " +:+ key)) ]
           (Some (sc_llm sc)) true.
Proof. intros [= <- <-]. done. Qed.

Lemma reference_subagent_key documents sc key agent (w : World R) w'
    documents' sc' key' agent' (v : World R) v' a :
  returns (_create_subagent R documents sc key agent) w a w' ->
  returns (_create_subagent R documents' sc' key' agent') v a v' ->
  key = key'.
Proof.
  intros H1 H2.
  apply reference_subagent in H1 as [_ ->].
  apply reference_subagent in H2 as [_ H2].
  apply (f_equal (fun a => description <$> (tool_metadata <$> agent_tools a)))
    in H2.
  injection H2 as H2 _. by apply append_inj in H2.
Qed.

Lemma reference_subagent_total documents sc key agent (w : World R) :
  exists a, returns (_create_subagent R documents sc key agent) w a w.
Proof. eexists. unfold returns. cbv. reflexivity. Qed.

Lemma reference_loop_total items sc agent agents nodes (w : World R) :
  exists built, returns (init_loop R items sc agent agents nodes) w built w.
Proof.
  revert agents nodes.
  induction items as [|[key documents] rest IH]; intros agents nodes.
  - by eexists.
  - destruct (reference_subagent_total documents sc key agent w) as [a Ha].
    destruct (IH (<[key := a]> agents)
                (nodes ++ [mkIndexNode (summary_of key) key]))
      as [built Hb].
    exists built. simpl.
    apply bind_returns. exists a, w. split; [exact Ha|].
    apply bind_returns. exists (summary_of key), w. split; [|exact Hb].
    by apply lift_returns.
Qed.

(** On the reference framework the constructor returns for every input. *)
Lemma reference_init_total agent_documents agent osc (w : World R) :
  exists self, returns (__init__ R agent_documents agent osc) w self w.
Proof.
  set (sc := default default_context osc).
  destruct (reference_loop_total (map_to_list agent_documents) sc agent ∅ [] w)
    as [[agents nodes] Hb].
  eexists. apply init_returns.
  eexists (mkInitRun (F := R) sc agents nodes _ _ _ _ w w w w w w).
  unfold init_steps, items_steps. simpl. split.
  { unfold context_step, sc. destruct osc; simpl; done. }
  split; [exact Hb|]. repeat (split; [reflexivity|]).
  instantiate (1 := mkToolSpec R _ _). split; reflexivity.
Qed.

(** The hierarchy a construction on the reference framework holds. *)
Lemma reference_built agent_documents agent osc (w : World R) self w' :
  returns (__init__ R agent_documents agent osc) w self w' ->
  exists sc nodes agents,
    query_engine self =
      mkRQueryEngine
        (mkRRecursiveRetriever "vector"
           {["vector" := mkRRetriever (FromNodes nodes sc) 1]} agents true)
        (mkRSynthesizer sc "compact") sc
    /\ index_id <$> nodes = (map_to_list agent_documents).*1
    /\ dom agents = dom agent_documents
    /\ query_keys self = dom agent_documents
    /\ (forall k k' a, agents !! k = Some a -> agents !! k' = Some a -> k = k').
Proof.
  intros H. pose proof (constructed_keys _ _ _ _ _ _ _ H) as Hk.
  apply init_returns in H as (r & Hr).
  pose proof (init_run_facts _ _ _ _ _ _ _ _ Hr) as (Hn & Hd & Hsub).
  destruct Hr as (_ & _ & [= _ Hi] & [= _ Hv] & [= _ Hrr] & [= _ Hs]
                  & [= _ He] & _).
  exists (run_context r), (run_nodes r), (run_agents r).
  split; [by rewrite <- He, <- Hs, <- Hrr, <- Hv, <- Hi|].
  split; [by rewrite Hn, routing_ids|]. split; [exact Hd|].
  split; [exact Hk|].
  intros k k' a Ha Ha'.
  assert (is_Some (agent_documents !! k)) as [d Hkd]
    by (apply elem_of_dom; rewrite <- Hd; by apply elem_of_dom).
  assert (is_Some (agent_documents !! k')) as [d' Hkd']
    by (apply elem_of_dom; rewrite <- Hd; by apply elem_of_dom).
  destruct (Hsub _ _ Hkd) as (b & w1 & w2 & Hb & Hc).
  destruct (Hsub _ _ Hkd') as (b' & w1' & w2' & Hb' & Hc').
  pose proof (eq_trans (eq_sym Ha) Hb) as [= <-].
  pose proof (eq_trans (eq_sym Ha') Hb') as [= <-].
  by eapply reference_subagent_key.
Qed.

Lemma reference_routing agent_documents agent osc (w : World R) self w' :
  returns (__init__ R agent_documents agent osc) w self w' ->
  exists sc nodes,
    routing_retriever self = Some (mkRRetriever (FromNodes nodes sc) 1)
    /\ retriever_dict (engine_retriever (query_engine self))
       = {["vector" := mkRRetriever (FromNodes nodes sc) 1]}
    /\ engine_synthesizer (query_engine self) = mkRSynthesizer sc "compact"
    /\ engine_context (query_engine self) = sc
    /\ index_id <$> nodes = (map_to_list agent_documents).*1
    /\ (forall k, k ∈ index_id <$> nodes -> is_Some (sub_agent self k))
    /\ (forall k k' a,
          sub_agent self k = Some a -> sub_agent self k' = Some a -> k = k').
Proof.
  intros H.
  apply reference_built in H as (sc & nodes & agents & Hq & Hn & Hd & _ & Hinj).
  exists sc, nodes. unfold routing_retriever, sub_agent. rewrite Hq. simpl.
  split; [apply lookup_singleton_eq|]. do 4 (split; [done|]).
  split; [|exact Hinj].
  intros k Hk. apply elem_of_dom. rewrite Hd, (dom_alt agent_documents).
  apply elem_of_list_to_set. by rewrite <- Hn.
Qed.

(** The two outcomes of a top-level query on a constructed hierarchy:
    no routing node is retrieved and the outcome is the undefined one,
    or one node is retrieved and the sub-agent of its key is asked. *)
Lemma reference_query agent_documents agent osc (w : World R) self w' :
  returns (__init__ R agent_documents agent osc) w self w' ->
  forall q (log : World R),
    (routing_match self q = [] /\ query self q log = (log, no_match))
    \/ (exists k a,
          routing_match self q = [k]
          /\ sub_agent self k = Some a
          /\ query self q log =
             (log ++ [(a, q)],
              inr (synthesize other_modes (engine_synthesizer (query_engine self))
                     q [agent_answer a q]))).
Proof.
  intros H q log.
  apply reference_routing in H
    as (sc & nodes & Hr & _ & _ & _ & _ & Hsub & _).
  assert (Hm : routing_match self q
               = index_id <$> take 1 (merge_sort (better sc q) nodes))
    by (unfold routing_match; by rewrite Hr).
  assert (Hin : forall n, n ∈ take 1 (merge_sort (better sc q) nodes) ->
                          is_Some (sub_agent self (index_id n))).
  { intros n Hn. apply Hsub, list_elem_of_fmap_2.
    apply (subseteq_take 1) in Hn. by rewrite merge_sort_Permutation in Hn. }
  unfold query. simpl. unfold engine_query.
  unfold routing_retriever in Hr. rewrite Hr. unfold retrieve. simpl.
  rewrite Hm. clear Hm.
  destruct (take 1 (merge_sort (better sc q) nodes)) as [|n [|n' rest]] eqn:Ht.
  - by left.
  - right. destruct (Hin n) as [a Ha]; [by left|].
    exists (index_id n), a. split; [done|]. split; [exact Ha|].
    unfold sub_agent in Ha. simpl. unfold bind, agent_query.
    by rewrite Ha.
  - apply (f_equal length) in Ht. rewrite length_take in Ht.
    cbn [length] in Ht. lia.
Qed.

Lemma best_first sc q nodes n :
  take 1 (merge_sort (better sc q) nodes) = [n] ->
  forall n', n' ∈ nodes -> better sc q n n'.
Proof.
  intros Ht n' Hn'.
  pose proof (StronglySorted_merge_sort (better sc q) nodes) as Hs.
  rewrite <- (merge_sort_Permutation (better sc q)) in Hn'.
  destruct (merge_sort (better sc q) nodes) as [|m rest]; [done|].
  injection Ht as ->.
  apply elem_of_cons in Hn' as [-> | Hn']; [unfold better; lia|].
  apply StronglySorted_inv in Hs as [_ Hs].
  by eapply Forall_forall in Hs.
Qed.

(** C4: the constructor keeps one retriever, over one index that holds
    all the routing nodes, with [similarity_top_k = 1]; for every query
    it resolves to at most one key, a key of the hierarchy, and the node
    it retrieves scores at least as high as every other routing node. *)
Theorem routing_resolves_one_key agent_documents agent osc (w : World R)
    self w' :
  returns (__init__ R agent_documents agent osc) w self w' ->
  exists r : RRetriever Doc,
    routing_retriever self = Some r
    /\ retriever_dict (engine_retriever (query_engine self))
       = {["vector" := r]}
    /\ similarity_top_k r = 1
    /\ index_id <$> index_nodes (retriever_index r)
       ≡ₚ elements (query_keys self)
    /\ forall q,
         length (routing_match self q) <= 1
         /\ (forall k, k ∈ routing_match self q -> k ∈ query_keys self)
         /\ (forall n, retrieve r q = [n] ->
               forall n', n' ∈ index_nodes (retriever_index r) ->
                 (similarity (index_context (retriever_index r)) q (text n')
                  <= similarity (index_context (retriever_index r)) q
                       (text n))%Z).
Proof.
  intros H. pose proof (constructed_keys _ _ _ _ _ _ _ H) as Hk.
  apply reference_routing in H
    as (sc & nodes & Hr & Hd & _ & _ & Hn & _ & _).
  exists (mkRRetriever (FromNodes nodes sc) 1).
  split; [exact Hr|]. split; [exact Hd|]. split; [done|]. simpl. split.
  { rewrite Hn, Hk. apply NoDup_Permutation.
    - apply NoDup_fst_map_to_list.
    - apply NoDup_elements.
    - intros k.
      by rewrite elem_of_elements, (dom_alt agent_documents),
        elem_of_list_to_set. }
  intros q.
  assert (Hm : routing_match self q
               = index_id <$> take 1 (merge_sort (better sc q) nodes))
    by (unfold routing_match; by rewrite Hr).
  split; [|split].
  - rewrite Hm, length_fmap, length_take. lia.
  - intros k Hin. rewrite Hm in Hin.
    apply list_elem_of_fmap in Hin as (n & -> & Hin).
    apply (subseteq_take 1) in Hin.
    rewrite merge_sort_Permutation in Hin.
    rewrite Hk, (dom_alt agent_documents), elem_of_list_to_set, <- Hn.
    by apply list_elem_of_fmap_2.
  - intros n Ht n' Hn'. by apply (best_first sc q nodes n).
Qed.

(** C6: when the routing match of a query is the key [k], the query asks
    the sub-agent held for [k] once and no other sub-agent: the
    invocation log grows by exactly that one call, and the sub-agent
    asked is held for no other key.  Whatever the query, at most one
    sub-agent is asked. *)
Theorem query_consults_routed_subagent_only agent_documents agent osc
    (w : World R) self w' :
  returns (__init__ R agent_documents agent osc) w self w' ->
  (forall k q, routing_match self q = [k] ->
     exists a,
       sub_agent self k = Some a
       /\ (forall k', sub_agent self k' = Some a -> k' = k)
       /\ forall log : World R,
            exists out, query self q log = (log ++ [(a, q)], inr out))
  /\ (forall q (log : World R),
        exists calls out,
          query self q log = (log ++ calls, out) /\ length calls <= 1).
Proof.
  intros H. split.
  - intros k q Hk.
    destruct (reference_query _ _ _ _ _ _ H q [])
      as [[Hnone _] | (k0 & a & Hone & Ha & _)]; [congruence|].
    assert (k0 = k) as -> by congruence.
    exists a. split; [exact Ha|]. split.
    + intros k' Ha'.
      apply reference_routing in H as (_ & _ & _ & _ & _ & _ & _ & _ & Hinj).
      by apply (Hinj k' k a).
    + intros log.
      destruct (reference_query _ _ _ _ _ _ H q log)
        as [[Hnone _] | (k1 & a1 & Hone1 & Ha1 & Hq)]; [congruence|].
      assert (k1 = k) as -> by congruence.
      assert (a1 = a) as -> by congruence. eauto.
  - intros q log.
    destruct (reference_query _ _ _ _ _ _ H q log)
      as [[_ Hq] | (k & a & _ & _ & Hq)].
    + exists [], no_match. rewrite app_nil_r. split; [exact Hq | simpl; lia].
    + do 2 eexists. split; [exact Hq|]. simpl. lia.
Qed.

(** C7: the response synthesizer of the top-level query engine is the one
    made with response mode compact, and the answer of a routed query is
    the synthesizer's output on the routed sub-agent's answer: the
    language model's generation from the question and that answer. *)
Theorem query_synthesizes_compact agent_documents agent osc (w : World R)
    self w' :
  returns (__init__ R agent_documents agent osc) w self w' ->
  response_mode (engine_synthesizer (query_engine self)) = "compact"
  /\ synthesizer_context (engine_synthesizer (query_engine self))
     = engine_context (query_engine self)
  /\ forall k q a (log : World R),
       routing_match self q = [k] ->
       sub_agent self k = Some a ->
       (query self q log).2
       = inr (synthesize other_modes (engine_synthesizer (query_engine self))
                q [agent_answer a q])
       /\ synthesize other_modes (engine_synthesizer (query_engine self))
            q [agent_answer a q]
          = generate (sc_llm (engine_context (query_engine self))) q
              (agent_answer a q).
Proof.
  intros H.
  pose proof (reference_routing _ _ _ _ _ _ H)
    as (sc & nodes & _ & _ & Hs & Hc & _).
  rewrite Hs, Hc. split; [done|]. split; [done|].
  intros k q a log Hk Ha. split; [|done].
  destruct (reference_query _ _ _ _ _ _ H q log)
    as [[Hnone _] | (k1 & a1 & Hone & Ha1 & Hq)]; [congruence|].
  assert (k1 = k) as -> by congruence.
  assert (a1 = a) as -> by congruence.
  by rewrite Hq, Hs.
Qed.

End ReferenceProperties.

(** ** The scenario: keys alpha and beta *)

Lemma scenario_constructs :
  returns
    (__init__ Scenario.framework Scenario.agent_documents Scenario.agent None)
    [] Scenario.self [].
Proof. reflexivity. Defined.

Example scenario_routes_alpha :
  routing_match Scenario.self "alpha" = ["alpha"]
  /\ routing_match Scenario.self "beta" = ["beta"].
Proof. split; reflexivity. Qed.

Example scenario_strict_rejects :
  raises (__init__ Scenario.strict {["alpha" := []]} Scenario.agent None)
    [] (ValueError "empty collection") [].
Proof. reflexivity. Qed.

Lemma query_keys_exact_scenario :
  returns
    (__init__ Scenario.framework Scenario.agent_documents Scenario.agent None)
    [] Scenario.self []
  /\ query_keys Scenario.self = dom Scenario.agent_documents
  /\ forall k,
       k ∈ query_keys Scenario.self
       <-> is_Some (Scenario.agent_documents !! k).
Proof.
  split; [exact scenario_constructs|].
  exact (query_keys_exact Scenario.framework Scenario.agent_documents
           Scenario.agent None [] Scenario.self [] scenario_constructs).
Defined.

Lemma routing_nodes_biject_keys_scenario :
  returns
    (__init__ Scenario.framework Scenario.agent_documents Scenario.agent None)
    [] Scenario.self []
  /\ exists r : InitRun Scenario.framework,
       init_steps Scenario.framework Scenario.agent_documents Scenario.agent
         None [] r Scenario.self []
       /\ NoDup (index_id <$> run_nodes r)
       /\ index_id <$> run_nodes r ≡ₚ elements (dom (run_agents r))
       /\ (forall k, k ∈ index_id <$> run_nodes r <-> k ∈ dom (run_agents r))
       /\ length (run_nodes r) = size Scenario.agent_documents
       /\ size (run_agents r) = size Scenario.agent_documents
       /\ dom (run_agents r) = dom Scenario.agent_documents.
Proof.
  split; [exact scenario_constructs|].
  exact (routing_nodes_biject_keys Scenario.framework Scenario.agent_documents
           Scenario.agent None [] Scenario.self [] scenario_constructs).
Defined.

Lemma scenario_subagent :
  returns
    (_create_subagent Scenario.framework ["doc1"] Scenario.context "alpha"
       Scenario.agent)
    [] (Scenario.subagent "alpha" "doc1") [].
Proof. reflexivity. Defined.

Lemma subagent_has_two_tools_scenario :
  returns
    (_create_subagent Scenario.framework ["doc1"] Scenario.context "alpha"
       Scenario.agent)
    [] (Scenario.subagent "alpha" "doc1") []
  /\ exists r : SubagentRun Scenario.framework,
       subagent_steps Scenario.framework ["doc1"] Scenario.context "alpha"
         Scenario.agent [] r (Scenario.subagent "alpha" "doc1") []
       /\ length (sub_tools r) = 2
       /\ tool_query_engine <$> sub_tools r
          = [sub_vector_engine r; sub_summary_engine r]
       /\ Forall
            (fun t => contains "alpha" (description (tool_metadata t)) = true)
            (sub_tools r).
Proof.
  split; [exact scenario_subagent|].
  exact (subagent_has_two_tools Scenario.framework ["doc1"] Scenario.context
           "alpha" Scenario.agent [] (Scenario.subagent "alpha" "doc1") []
           scenario_subagent).
Defined.

Lemma subagent_tools_cross_described_scenario :
  returns
    (_create_subagent Scenario.framework ["doc1"] Scenario.context "alpha"
       Scenario.agent)
    [] (Scenario.subagent "alpha" "doc1") []
  /\ exists r : SubagentRun Scenario.framework,
       subagent_steps Scenario.framework ["doc1"] Scenario.context "alpha"
         Scenario.agent [] r (Scenario.subagent "alpha" "doc1") []
       /\ sub_tools r =
          [ mkQueryEngineTool (sub_vector_engine r)
              (mkToolMetadata "vector_tool"
                 "Useful for summarization questions related to alpha");
            mkQueryEngineTool (sub_summary_engine r)
              (mkToolMetadata "summary_tool"
                 "Useful for retrieving specific context from alpha") ]
       /\ name <$> (tool_metadata <$> sub_tools r)
          = ["vector_tool"; "summary_tool"].
Proof.
  split; [exact scenario_subagent|].
  exact (subagent_tools_cross_described Scenario.framework ["doc1"]
           Scenario.context "alpha" Scenario.agent []
           (Scenario.subagent "alpha" "doc1") [] scenario_subagent).
Defined.

Lemma routing_node_text_and_id_scenario :
  returns
    (__init__ Scenario.framework Scenario.agent_documents Scenario.agent None)
    [] Scenario.self []
  /\ exists r : InitRun Scenario.framework,
       init_steps Scenario.framework Scenario.agent_documents Scenario.agent
         None [] r Scenario.self []
       /\ (forall n, n ∈ run_nodes r ->
             is_Some (Scenario.agent_documents !! index_id n)
             /\ str_format DEFAULT_SUMMARY [("key", index_id n)] = inr (text n)
             /\ text n = summary_of (index_id n)
             /\ contains ("about " +:+ index_id n) (text n) = true)
       /\ (forall k, is_Some (Scenario.agent_documents !! k) ->
             exists n, n ∈ run_nodes r /\ index_id n = k
                       /\ forall n', n' ∈ run_nodes r -> index_id n' = k ->
                                     n' = n).
Proof.
  split; [exact scenario_constructs|].
  exact (routing_node_text_and_id Scenario.framework Scenario.agent_documents
           Scenario.agent None [] Scenario.self [] scenario_constructs).
Defined.

Example scenario_strict_any_order :
  raises
    (init_items Scenario.strict [("beta", ["doc2"]); ("alpha", [])]
       Scenario.agent None)
    [] (ValueError "empty collection") [].
Proof. reflexivity. Qed.

Example scenario_first_failure_wins :
  raises
    (init_items Scenario.naming [("beta", ["docB"]); ("alpha", ["docA"])]
       Scenario.agent None)
    [] (ValueError "docB") []
  /\ raises
       (init_items Scenario.naming [("alpha", ["docA"]); ("beta", ["docB"])]
          Scenario.agent None)
       [] (ValueError "docA") [].
Proof. split; reflexivity. Qed.

Lemma failures_propagate_unmodified_scenario :
  raises
    (init_items Scenario.naming [("beta", ["docB"]); ("alpha", ["docA"])]
       Scenario.agent None)
    [] (ValueError "docB") []
  /\ init_raise Scenario.naming [("beta", ["docB"]); ("alpha", ["docA"])]
       Scenario.agent None [] (ValueError "docB") [].
Proof.
  split; [reflexivity|].
  apply (failures_propagate_unmodified Scenario.naming). reflexivity.
Defined.

Lemma empty_mapping_constructs_scenario :
  context_step Scenario.framework None [] Scenario.context []
  /\ exists self,
       returns (__init__ Scenario.framework ∅ Scenario.agent None) [] self []
       /\ query_keys self = ∅
       /\ forall q,
            query self q
            = RetrieverQueryEngine_query Scenario.framework Scenario.hollow q.
Proof.
  split; [reflexivity|].
  apply (empty_mapping_constructs Scenario.framework Scenario.agent None []
           Scenario.context [] (FromNodes [] Scenario.context) []
           (mkRRetriever (FromNodes [] Scenario.context) 1) []
           (engine_retriever Scenario.hollow) []
           (engine_synthesizer Scenario.hollow) [] Scenario.hollow []);
    reflexivity.
Defined.

Lemma routing_resolves_one_key_scenario :
  returns
    (__init__ Scenario.framework Scenario.agent_documents Scenario.agent None)
    [] Scenario.self []
  /\ exists r : RRetriever string,
       routing_retriever Scenario.self = Some r
       /\ retriever_dict (engine_retriever (query_engine Scenario.self))
          = {["vector" := r]}
       /\ similarity_top_k r = 1
       /\ index_id <$> index_nodes (retriever_index r)
          ≡ₚ elements (query_keys Scenario.self)
       /\ forall q,
            length (routing_match Scenario.self q) <= 1
            /\ (forall k, k ∈ routing_match Scenario.self q ->
                          k ∈ query_keys Scenario.self)
            /\ (forall n, retrieve r q = [n] ->
                  forall n', n' ∈ index_nodes (retriever_index r) ->
                    (similarity (index_context (retriever_index r)) q (text n')
                     <= similarity (index_context (retriever_index r)) q
                          (text n))%Z).
Proof.
  split; [exact scenario_constructs|].
  exact (routing_resolves_one_key string Scenario.context Scenario.answer
           Scenario.other Scenario.nothing Scenario.agent_documents
           Scenario.agent None [] Scenario.self [] scenario_constructs).
Defined.

Lemma query_consults_routed_subagent_only_scenario :
  returns
    (__init__ Scenario.framework Scenario.agent_documents Scenario.agent None)
    [] Scenario.self []
  /\ routing_match Scenario.self "alpha" = ["alpha"]
  /\ exists a,
       sub_agent Scenario.self "alpha" = Some a
       /\ (forall k', sub_agent Scenario.self k' = Some a -> k' = "alpha")
       /\ forall log : World Scenario.framework,
            exists out,
              query Scenario.self "alpha" log = (log ++ [(a, "alpha")], inr out).
Proof.
  split; [exact scenario_constructs|]. split; [reflexivity|].
  apply (proj1 (query_consults_routed_subagent_only string Scenario.context
                  Scenario.answer Scenario.other Scenario.nothing
                  Scenario.agent_documents Scenario.agent None []
                  Scenario.self [] scenario_constructs)).
  reflexivity.
Defined.

Lemma query_synthesizes_compact_scenario :
  returns
    (__init__ Scenario.framework Scenario.agent_documents Scenario.agent None)
    [] Scenario.self []
  /\ response_mode (engine_synthesizer (query_engine Scenario.self)) = "compact"
  /\ (query Scenario.self "beta" []).2
     = inr (synthesize Scenario.other
              (engine_synthesizer (query_engine Scenario.self)) "beta"
              [Scenario.answer (Scenario.subagent "beta" "doc2") "beta"]).
Proof.
  split; [exact scenario_constructs|].
  destruct (query_synthesizes_compact string Scenario.context Scenario.answer
              Scenario.other Scenario.nothing Scenario.agent_documents
              Scenario.agent None [] Scenario.self [] scenario_constructs)
    as (Hmode & _ & Hquery).
  split; [exact Hmode|].
  apply (Hquery "beta" "beta" (Scenario.subagent "beta" "doc2") []);
    reflexivity.
Defined.

(** * Further properties of the constructor and the sub-agent factory *)

Lemma length_append (s t : string) :
  String.length (s +:+ t) = String.length s + String.length t.
Proof. induction s as [|c s IH]; [done|]. simpl. by rewrite IH. Qed.

Lemma append_same_length (s t x y : string) :
  String.length s = String.length t -> s +:+ x = t +:+ y -> s = t.
Proof.
  revert t. induction s as [|c s IH]; intros [|c' t] Hl H; try done.
  injection Hl as Hl. injection H as -> H. f_equal. by apply IH.
Qed.

Lemma summary_of_inj (k k' : string) : summary_of k = summary_of k' -> k = k'.
Proof.
  unfold summary_of. intros H. apply append_inj in H.
  apply (append_same_length _ _ _ _) in H; [done|].
  apply (f_equal String.length) in H.
  rewrite !length_append in H. simpl in H. lia.
Qed.

(** X1: in a construction every key of the mapping gets the sub-agent that
    the factory made from that key's own documents, with the key itself,
    the shared service context and the given agent; no other key is in the
    sub-agent map. *)
Theorem subagents_bound_to_own_documents F agent_documents agent osc w
    self w' :
  returns (__init__ F agent_documents agent osc) w self w' ->
  exists r : InitRun F,
    init_steps F agent_documents agent osc w r self w'
    /\ forall k,
         match agent_documents !! k with
         | Some documents =>
             exists a w1 w2,
               run_agents r !! k = Some a
               /\ returns
                    (_create_subagent F documents (run_context r) k agent)
                    w1 a w2
         | None => run_agents r !! k = None
         end.
Proof.
  intros H. apply init_returns in H as (r & Hr). exists r.
  split; [exact Hr|].
  pose proof (init_run_facts _ _ _ _ _ _ _ _ Hr) as (_ & Hd & Hsub).
  intros k. destruct (agent_documents !! k) as [d|] eqn:Hk.
  - by apply Hsub.
  - apply not_elem_of_dom. rewrite Hd. by apply not_elem_of_dom.
Qed.

(** X2: the constructor skips no key: if the factory cannot return for the
    documents of one key of the mapping (an empty collection the framework
    rejects, say), the whole construction raises, whatever the other keys
    hold. *)
Theorem failing_key_fails_construction F agent_documents agent osc k
    documents :
  agent_documents !! k = Some documents ->
  (forall sc w a w',
     ~ returns (_create_subagent F documents sc k agent) w a w') ->
  forall w, exists e w', raises (__init__ F agent_documents agent osc) w e w'.
Proof.
  intros Hk Hfail w.
  destruct (__init__ F agent_documents agent osc w) as [w' [e|self]] eqn:E.
  - by exists e, w'.
  - exfalso. apply init_returns in E as (r & Hr).
    pose proof (init_run_facts _ _ _ _ _ _ _ _ Hr) as (_ & _ & Hsub).
    destruct (Hsub _ _ Hk) as (a & w1 & w2 & _ & Ha). by eapply Hfail.
Qed.

(** X3: the routing retriever is registered under the fixed id "vector" and
    the sub-agents under their keys, with no renaming and no guard: when
    the constructor reaches the recursive retriever, the two id sets it
    hands over are disjoint exactly when no key of the input is "vector",
    and whatever that call raises is what the constructor raises. *)
Theorem root_id_collides_with_vector_key F items agent osc w sc w0 agents
    nodes w1 index w2 vr w3 :
  context_step F osc w sc w0 ->
  returns (init_loop F items sc agent ∅ []) w0 (agents, nodes) w1 ->
  returns (VectorStoreIndex_init F nodes sc) w1 index w2 ->
  returns (as_retriever F index 1) w2 vr w3 ->
  (dom ({["vector" := vr]} : gmap string (Retriever F)) ## dom agents
   <-> "vector" ∉ items.*1)
  /\ forall e w',
       raises
         (RecursiveRetriever_init F "vector" {["vector" := vr]} agents true)
         w3 e w' ->
       raises (init_items F items agent osc) w e w'.
Proof.
  intros H0 H1 H2 H3. split.
  - apply init_loop_returns in H1 as (_ & Hd & _).
    rewrite dom_singleton_L, Hd, dom_empty_L, (left_id_L ∅ (∪)).
    by rewrite disjoint_singleton_l, elem_of_list_to_set.
  - intros e w' H. apply init_raises. by eapply raise_recursive_retriever.
Qed.

(** X4: no two routing nodes of a construction have the same text: the
    formatted summary determines the key. *)
Theorem routing_texts_distinct F agent_documents agent osc w self w' :
  returns (__init__ F agent_documents agent osc) w self w' ->
  exists r : InitRun F,
    init_steps F agent_documents agent osc w r self w'
    /\ forall n n',
         n ∈ run_nodes r -> n' ∈ run_nodes r -> text n = text n' -> n = n'.
Proof.
  intros H. apply init_returns in H as (r & Hr). exists r.
  split; [exact Hr|].
  pose proof (init_run_facts _ _ _ _ _ _ _ _ Hr) as (Hn & _ & _).
  rewrite Hn. intros n n' Hin Hin' Ht.
  apply list_elem_of_fmap in Hin as (k & -> & _).
  apply list_elem_of_fmap in Hin' as (k' & -> & _).
  simpl in Ht. by rewrite (summary_of_inj _ _ Ht).
Qed.

(** X5: the two tool descriptors of a sub-agent differ, and a tool
    descriptor (name and description) found in the sub-agents of two keys
    forces the keys to be equal: descriptors never repeat across keys. *)
Theorem tool_descriptors_identify_key F documents sc k agent w a w'
    documents' sc' k' agent' v a' v' :
  returns (_create_subagent F documents sc k agent) w a w' ->
  returns (_create_subagent F documents' sc' k' agent') v a' v' ->
  exists r r' : SubagentRun F,
    subagent_steps F documents sc k agent w r a w'
    /\ subagent_steps F documents' sc' k' agent' v r' a' v'
    /\ NoDup (tool_metadata <$> sub_tools r)
    /\ forall t t',
         t ∈ sub_tools r -> t' ∈ sub_tools r' ->
         tool_metadata t = tool_metadata t' -> k = k'.
Proof.
  intros H H'.
  apply create_subagent_returns in H as (r & Hr & Ht).
  apply create_subagent_returns in H' as (r' & Hr' & Ht').
  exists r, r'. split; [exact Hr|]. split; [exact Hr'|].
  rewrite Ht, Ht'. split.
  - apply NoDup_cons. split; [|apply NoDup_singleton].
    intros Hin. apply list_elem_of_singleton in Hin. discriminate Hin.
  - intros t t' Hin Hin' Hm.
    apply elem_of_cons in Hin as [-> | Hin];
      [|apply list_elem_of_singleton in Hin as ->];
      (apply elem_of_cons in Hin' as [-> | Hin'];
       [|apply list_elem_of_singleton in Hin' as ->]);
      simpl in Hm; try discriminate Hm;
      injection Hm as Hm; by apply append_inj in Hm.
Qed.


(** ** The further properties on the scenario *)

Lemma subagents_bound_to_own_documents_scenario :
  returns
    (__init__ Scenario.framework Scenario.agent_documents Scenario.agent None)
    [] Scenario.self []
  /\ exists r : InitRun Scenario.framework,
       init_steps Scenario.framework Scenario.agent_documents Scenario.agent
         None [] r Scenario.self []
       /\ forall k,
            match Scenario.agent_documents !! k with
            | Some documents =>
                exists a w1 w2,
                  run_agents r !! k = Some a
                  /\ returns
                       (_create_subagent Scenario.framework documents
                          (run_context r) k Scenario.agent)
                       w1 a w2
            | None => run_agents r !! k = None
            end.
Proof.
  split; [exact scenario_constructs|].
  exact (subagents_bound_to_own_documents Scenario.framework
           Scenario.agent_documents Scenario.agent None [] Scenario.self []
           scenario_constructs).
Defined.

Lemma failing_key_fails_construction_scenario :
  ({["alpha" := []]} : gmap string (list string)) !! "alpha" = Some []
  /\ forall w,
       exists e w',
         raises (__init__ Scenario.strict {["alpha" := []]} Scenario.agent None)
           w e w'.
Proof.
  split; [reflexivity|].
  apply (failing_key_fails_construction Scenario.strict {["alpha" := []]}
           Scenario.agent None "alpha" []); [reflexivity|].
  intros sc w a w' H. discriminate H.
Defined.

Lemma root_id_collides_with_vector_key_scenario :
  returns
    (init_loop Scenario.checked [("vector", ["doc0"])] Scenario.context
       Scenario.agent ∅ [])
    []
    ({["vector" := Scenario.subagent "vector" "doc0"]}, [routing_node "vector"])
    []
  /\ ~ (dom ({["vector" :=
                 mkRRetriever
                   (FromNodes [routing_node "vector"] Scenario.context) 1]}
              : gmap string (RRetriever string))
        ## dom ({["vector" := Scenario.subagent "vector" "doc0"]}
                : gmap string (RAgent string)))
  /\ raises
       (init_items Scenario.checked [("vector", ["doc0"])] Scenario.agent None)
       [] (ValueError "Retriever and query engine ids must not overlap.") [].
Proof.
  split; [reflexivity|].
  destruct (root_id_collides_with_vector_key Scenario.checked
              [("vector", ["doc0"])] Scenario.agent None [] Scenario.context
              [] {["vector" := Scenario.subagent "vector" "doc0"]}
              [routing_node "vector"] []
              (FromNodes [routing_node "vector"] Scenario.context) []
              (mkRRetriever
                 (FromNodes [routing_node "vector"] Scenario.context) 1) [])
    as [Hids Hraise]; try reflexivity.
  split.
  - intros Hd. apply Hids in Hd. apply Hd. by left.
  - apply Hraise. reflexivity.
Defined.

Lemma routing_texts_distinct_scenario :
  returns
    (__init__ Scenario.framework Scenario.agent_documents Scenario.agent None)
    [] Scenario.self []
  /\ exists r : InitRun Scenario.framework,
       init_steps Scenario.framework Scenario.agent_documents Scenario.agent
         None [] r Scenario.self []
       /\ forall n n',
            n ∈ run_nodes r -> n' ∈ run_nodes r -> text n = text n' ->
            n = n'.
Proof.
  split; [exact scenario_constructs|].
  exact (routing_texts_distinct Scenario.framework Scenario.agent_documents
           Scenario.agent None [] Scenario.self [] scenario_constructs).
Defined.

Lemma scenario_subagent_beta :
  returns
    (_create_subagent Scenario.framework ["doc2"] Scenario.context "beta"
       Scenario.agent)
    [] (Scenario.subagent "beta" "doc2") [].
Proof. reflexivity. Defined.

Lemma tool_descriptors_identify_key_scenario :
  exists r r' : SubagentRun Scenario.framework,
    subagent_steps Scenario.framework ["doc1"] Scenario.context "alpha"
      Scenario.agent [] r (Scenario.subagent "alpha" "doc1") []
    /\ subagent_steps Scenario.framework ["doc2"] Scenario.context "beta"
         Scenario.agent [] r' (Scenario.subagent "beta" "doc2") []
    /\ NoDup (tool_metadata <$> sub_tools r)
    /\ forall t t',
         t ∈ sub_tools r -> t' ∈ sub_tools r' ->
         tool_metadata t = tool_metadata t' -> "alpha" = "beta".
Proof.
  exact (tool_descriptors_identify_key Scenario.framework
           ["doc1"] Scenario.context "alpha" Scenario.agent []
           (Scenario.subagent "alpha" "doc1") []
           ["doc2"] Scenario.context "beta" Scenario.agent []
           (Scenario.subagent "beta" "doc2") []
           scenario_subagent scenario_subagent_beta).
Defined.


